(** * algokit-utils-py: signer registry, suggested-params cache, dispatch facade

    A shallow embedding of

    - [src/algokit_utils/account_manager.py]  (class [AccountManager]),
    - [src/algokit_utils/algorand-client.py]  (class [AlgorandClient]),

    and the properties that the design document states about them.

    Modelling conventions.

    - The two Python objects live in one heap, [State]: the [AccountManager]
      instance, the [AlgorandClient] instance that owns it, and the external
      [World] (ledger node, key generator) that the code talks to.
    - A method is a computation of the monad [M]: it takes the heap and
      returns a [result] (a value or a raised exception) with the heap it
      leaves behind.  A Python exception does not roll the heap back.
    - [algorand-client.py] calls [time.time()] on three lines but never
      imports [time], and no other import binds that name: evaluating
      [time] raises [NameError], before anything is called.  That is what
      [time_time] does; there is no clock in the model.
    - Timestamps (the argument [until], the stored expiry) are numbers,
      modelled as exact rationals ([Q]).
    - Instances of [TransactionSigner], [SuggestedParams] and [Account] are
      plain objects (no [__bool__], no [__len__]), hence truthy: on values
      of type [Optional[...]] the tests [x or y] and [not x] only tell
      [None] from an object.  A float is falsy exactly when it is zero.
    - Objects are compared by their contents: the attribute
      [account.signer], read twice, gives the same signer.
    - What the two classes call and the sources do not contain (the
      ledger node, the key-management service, the key generator, the
      account helpers, the construction of transactions) is a field of the
      environment [Env]; the composer and [get_kmd_wallet_account] are
      modelled from the design document. *)

From Stdlib Require Import ZArith QArith Lqa String List.
From stdpp Require Import base option gmap strings.
Import ListNotations.

Local Open Scope string_scope.
Local Open Scope Z_scope.

(** ** Python results and truthiness *)

Inductive exn : Type :=
| ValueError (msg : string)
| IndexError (msg : string)
| NameError (msg : string)
| ExternalError (msg : string).

Inductive result (A : Type) : Type :=
| Ok (a : A)
| Raise (e : exn).

Arguments Ok {A} a.
Arguments Raise {A} e.

(** [x or y] on two values of an [Optional] object type. *)
Definition py_or {A} (x y : option A) : option A :=
  match x with
  | Some a => Some a
  | None => y
  end.

(** [bool(x)] for a float. *)
Definition float_truthy (x : Q) : bool := negb (Qeq_bool x 0).

(** [a > b] on floats. *)
Definition float_gt (a b : Q) : bool := negb (Qle_bool a b).

(** [xs[0]] on a list. *)
Definition item0 {A} (xs : list A) : result A :=
  match xs with
  | [] => Raise (IndexError "list index out of range")
  | x :: _ => Ok x
  end.

(** The names the design document gives to the two lookup failures; the
    code raises [ValueError] with these messages. *)
Definition SignerNotFoundError (sender : string) : exn :=
  ValueError ("No signer found for address " ++ sender).

Definition AccountNotFoundError (name : string) (with_predicate : bool) : exn :=
  ValueError ("Unable to find KMD account " ++ name ++
              (if with_predicate then " with predicate" else "")).

(** [algokit_utils.account.Account] as the sources construct it
    ([Account(private_key=pk, address=addr)] in [testing/account.py]). *)
Record Account : Type := mkAccount {
  private_key : string;
  address : string
}.

(** The operation kinds of the two dispatch tables. *)
Inductive OpKind : Type :=
| payment | asset_create | asset_config | asset_freeze | asset_destroy
| asset_transfer | app_call | online_key_reg | method_call | asset_opt_in.

Section Client.

(** External object types: signers, ledger parameters, built transactions,
    the typed parameter records, confirmation records and the account
    summaries returned by the ledger node. *)
Context {TransactionSigner SuggestedParams Transaction TxnParams
         Confirmation AccountInfo : Type}.

(** ** Data model *)

Record AddrAndSigner : Type := mkAddrAndSigner {
  addr : string;
  signer : TransactionSigner
}.

Record AccountManager : Type := mkAccountManager {
  _accounts : gmap string TransactionSigner;
  _default_signer : option TransactionSigner
}.

Record AlgorandClient : Type := mkAlgorandClient {
  _cached_suggested_params : option SuggestedParams;
  _cached_suggested_params_expiry : option Q;
  _cached_suggested_params_timeout : Z;
  _default_validity_window : Z
}.

(** What the code can observe of, and do to, the outside: how many times
    the ledger node's [suggested_params] endpoint, the key generator and
    the ledger node's submission endpoint were called, and the ledger
    state: the groups the node accepted, oldest first. *)
Record World : Type := mkWorld {
  suggested_params_calls : nat;
  generate_account_calls : nat;
  submit_calls : nat;
  submitted : list (list Transaction)
}.

Record State : Type := mkState {
  account_manager : AccountManager;
  algorand_client : AlgorandClient;
  world : World
}.

(** ** The monad of methods *)

Definition M (A : Type) : Type := State -> result A * State.

Definition ret {A} (a : A) : M A := fun st => (Ok a, st).

Definition raise {A} (e : exn) : M A := fun st => (Raise e, st).

Definition bind {A B} (c : M A) (k : A -> M B) : M B :=
  fun st =>
    match c st with
    | (Ok a, st') => k a st'
    | (Raise e, st') => (Raise e, st')
    end.

Notation "x <- c ;; k" := (bind c (fun x => k))
  (at level 100, c at next level, right associativity).
Notation "c ;;; k" := (bind c (fun _ => k))
  (at level 100, right associativity).

Definition lift {A} (r : result A) : M A := fun st => (r, st).

Definition read_manager : M AccountManager :=
  fun st => (Ok (account_manager st), st).

Definition write_manager (m : AccountManager) : M unit :=
  fun st => (Ok tt, mkState m (algorand_client st) (world st)).

Definition read_client : M AlgorandClient :=
  fun st => (Ok (algorand_client st), st).

Definition write_client (c : AlgorandClient) : M unit :=
  fun st => (Ok tt, mkState (account_manager st) c (world st)).

Definition read_world : M World :=
  fun st => (Ok (world st), st).

Definition write_world (w : World) : M unit :=
  fun st => (Ok tt, mkState (account_manager st) (algorand_client st) w).

(** ** [AccountManager] *)

(** [AccountManager.__init__] *)
Definition AccountManager_init : AccountManager :=
  mkAccountManager ∅ None.

(** [AccountManager.set_default_signer] (returns [self]). *)
Definition set_default_signer (signer0 : TransactionSigner) : M unit :=
  m <- read_manager ;;
  write_manager (mkAccountManager (_accounts m) (Some signer0)).

(** [AccountManager.set_signer] (returns [self]). *)
Definition set_signer (sender : string) (signer0 : TransactionSigner) : M unit :=
  m <- read_manager ;;
  write_manager (mkAccountManager (<[sender := signer0]> (_accounts m))
                                  (_default_signer m)).

(** [AccountManager.get_signer] *)
Definition get_signer (sender : string) : M TransactionSigner :=
  m <- read_manager ;;
  match py_or (_accounts m !! sender) (_default_signer m) with
  | None => raise (ValueError ("No signer found for address " ++ sender))
  | Some signer0 => ret signer0
  end.

(** ** The outside world

    Everything the two classes call but do not define.  The answers of the
    ledger node and of the key generator are indexed by the number of calls
    made before, so that two calls may get two answers. *)

Record Env : Type := mkEnv {
  (** [algod.suggested_params()]: the outcome of the [k]-th call. *)
  algod_suggested_params : nat -> result SuggestedParams;
  (** [algosdk.account.generate_account()]: the pair [(sk, addr)] of the
      [k]-th call. *)
  algosdk_generate_account : nat -> string * string;
  (** The constructor [AccountTransactionSigner(sk)]. *)
  AccountTransactionSigner : string -> TransactionSigner;
  (** The attribute [account.signer] of an [Account]. *)
  Account_signer : Account -> TransactionSigner;
  (** [get_dispenser_account(algod)] and
      [get_localnet_default_account(algod)] of [algokit_utils.account]. *)
  get_dispenser_account : World -> result Account;
  get_localnet_default_account : World -> result Account;
  (** Key-management API: the accounts of the wallet of a given name, in
      the order the API lists them; [None] when there is no such wallet. *)
  kmd_wallet_accounts : string -> option (list Account);
  (** Ledger API: [algod.account_info(address)]. *)
  algod_account_info : string -> AccountInfo;
  (** Pure construction of the transactions of one operation record from
      the ledger parameters and the validity window. *)
  build_transactions : OpKind -> TxnParams -> SuggestedParams -> Z -> list Transaction;
  txn_sender : Transaction -> string;
  get_txid : Transaction -> string;
  (** Ledger API, submission endpoint: [None] when the node accepts the
      group offered by the [k]-th call, the error it raises otherwise. *)
  algod_send_transactions : nat -> list Transaction -> option exn;
  (** [wait_for_confirmation(algod, tx_id)] given the accepted groups. *)
  wait_for_confirmation : list (list Transaction) -> string -> result Confirmation
}.

Variable env : Env.

(** What evaluating the unbound name [time] raises. *)
Definition time_is_not_defined : exn := NameError "name 'time' is not defined".

(** [time.time()]: the name [time] is not bound in the module. *)
Definition time_time : M Q := raise time_is_not_defined.

(** [self._client_manager.algod.suggested_params()] *)
Definition fetch_suggested_params : M SuggestedParams :=
  w <- read_world ;;
  write_world (mkWorld (S (suggested_params_calls w))
                       (generate_account_calls w) (submit_calls w) (submitted w)) ;;;
  lift (algod_suggested_params env (suggested_params_calls w)).

(** [generate_account()] *)
Definition generate_account : M (string * string) :=
  w <- read_world ;;
  write_world (mkWorld (suggested_params_calls w)
                       (S (generate_account_calls w)) (submit_calls w) (submitted w)) ;;;
  ret (algosdk_generate_account env (generate_account_calls w)).

(** The submission endpoint of the ledger node. *)
Definition send_transactions (group : list Transaction) : M unit :=
  w <- read_world ;;
  match algod_send_transactions env (submit_calls w) group with
  | Some e =>
      write_world (mkWorld (suggested_params_calls w)
                           (generate_account_calls w) (S (submit_calls w)) (submitted w)) ;;;
      raise e
  | None =>
      write_world (mkWorld (suggested_params_calls w)
                           (generate_account_calls w) (S (submit_calls w))
                           (submitted w ++ [group])%list)
  end.

(** ** [AccountManager]: provisioning *)

(** Modelled from the spec: [get_kmd_wallet_account] of
    [algokit_utils/account.py], which is not among the sources.  It asks the
    key-management API for the account list of the named wallet; with a
    predicate it selects a candidate whose account summary satisfies the
    predicate, without one it picks from the wallet (here: the first
    listed); it yields nothing when the wallet is missing, is empty, or the
    predicate rejects every candidate. *)
Definition get_kmd_wallet_account (name : string)
    (predicate : option (AccountInfo -> bool)) : option Account :=
  match kmd_wallet_accounts env name with
  | None => None
  | Some candidates =>
      match predicate with
      | Some p => List.find (fun a => p (algod_account_info env (address a))) candidates
      | None => head candidates
      end
  end.

(** [AccountManager.from_kmd].  The parameter [sender] is not used by the
    body. *)
Definition from_kmd (name : string) (predicate : option (AccountInfo -> bool))
    (sender : option string) : M AddrAndSigner :=
  match get_kmd_wallet_account name predicate with
  | None =>
      raise (ValueError ("Unable to find KMD account " ++ name ++
                         match predicate with
                         | Some _ => " with predicate"
                         | None => ""
                         end))
  | Some account =>
      set_signer (address account) (Account_signer env account) ;;;
      ret (mkAddrAndSigner (address account) (Account_signer env account))
  end.

(** [AccountManager.random] *)
Definition random : M AddrAndSigner :=
  ska <- generate_account ;;
  let signer0 := AccountTransactionSigner env (fst ska) in
  set_signer (snd ska) signer0 ;;;
  ret (mkAddrAndSigner (snd ska) signer0).

(** [AccountManager.dispenser] *)
Definition dispenser : M AddrAndSigner :=
  w <- read_world ;;
  acct <- lift (get_dispenser_account env w) ;;
  set_signer (address acct) (Account_signer env acct) ;;;
  ret (mkAddrAndSigner (address acct) (Account_signer env acct)).

(** [AccountManager.localnet_dispenser] *)
Definition localnet_dispenser : M AddrAndSigner :=
  w <- read_world ;;
  acct <- lift (get_localnet_default_account env w) ;;
  set_signer (address acct) (Account_signer env acct) ;;;
  ret (mkAddrAndSigner (address acct) (Account_signer env acct)).

(** ** [AlgorandClient]: the suggested-params cache *)

(** [AlgorandClient.__init__] *)
Definition AlgorandClient_init : AlgorandClient :=
  mkAlgorandClient None None 3000 10.

Definition init_state (w : World) : State :=
  mkState AccountManager_init AlgorandClient_init w.

(** [SuggestedParams.copy()]: a new object with the same contents. *)
Definition copy (p : SuggestedParams) : SuggestedParams := p.

(** [AlgorandClient.set_suggested_params] (returns [self]). *)
Definition set_suggested_params (suggested_params : SuggestedParams)
    (until : option Q) : M unit :=
  c <- read_client ;;
  write_client (mkAlgorandClient (Some suggested_params)
                  (_cached_suggested_params_expiry c)
                  (_cached_suggested_params_timeout c)
                  (_default_validity_window c)) ;;;
  expiry <- match until with
            | Some u =>
                if float_truthy u then ret u
                else (now <- time_time ;;
                      ret (now + inject_Z (_cached_suggested_params_timeout c))%Q)
            | None =>
                now <- time_time ;;
                ret (now + inject_Z (_cached_suggested_params_timeout c))%Q
            end ;;
  c1 <- read_client ;;
  write_client (mkAlgorandClient (_cached_suggested_params c1)
                  (Some expiry)
                  (_cached_suggested_params_timeout c1)
                  (_default_validity_window c1)).

(** [AlgorandClient.set_suggested_params_timeout] (returns [self]). *)
Definition set_suggested_params_timeout (timeout : Z) : M unit :=
  c <- read_client ;;
  write_client (mkAlgorandClient (_cached_suggested_params c)
                  (_cached_suggested_params_expiry c)
                  timeout
                  (_default_validity_window c)).

(** The condition of the [if] of [get_suggested_params]; [and] and [or]
    short-circuit, so [time.time()] is evaluated only when a value is
    cached and an expiry is stored. *)
Definition cache_is_fresh : M bool :=
  c <- read_client ;;
  match _cached_suggested_params c with
  | None => ret false
  | Some _ =>
      match _cached_suggested_params_expiry c with
      | None => ret true
      | Some expiry => now <- time_time ;; ret (float_gt expiry now)
      end
  end.

(** [AlgorandClient.get_suggested_params] *)
Definition get_suggested_params : M SuggestedParams :=
  fresh <- cache_is_fresh ;;
  c <- read_client ;;
  match fresh, _cached_suggested_params c with
  | true, Some cached => ret (copy cached)
  | _, _ =>
      fetched <- fetch_suggested_params ;;
      write_client (mkAlgorandClient (Some fetched)
                      (_cached_suggested_params_expiry c)
                      (_cached_suggested_params_timeout c)
                      (_default_validity_window c)) ;;;
      now <- time_time ;;
      write_client (mkAlgorandClient (Some fetched)
                      (Some (now + inject_Z (_cached_suggested_params_timeout c))%Q)
                      (_cached_suggested_params_timeout c)
                      (_default_validity_window c)) ;;;
      ret (copy fetched)
  end.

(** [AlgorandClient.set_default_validity_window] (returns [self]). *)
Definition set_default_validity_window (validity_window : Z) : M unit :=
  c <- read_client ;;
  write_client (mkAlgorandClient (_cached_suggested_params c)
                  (_cached_suggested_params_expiry c)
                  (_cached_suggested_params_timeout c)
                  validity_window).

(** ** The transaction-group composer *)

Record TransactionWithSigner : Type := mkTransactionWithSigner {
  txn : Transaction;
  txn_signer : TransactionSigner
}.

Record AtomicTransactionResponse : Type := mkAtomicTransactionResponse {
  tx_ids : list string
}.

(** Modelled from the spec: the class [AlgokitComposer] of
    [algokit_utils/composer.py], which is not among the sources.  A composer
    is constructed with the ledger client, the signer resolver, the params
    provider and the default validity window; it accumulates typed
    operation records into an ordered group.  The resolver and the provider
    are the two bound methods [get_signer] and [get_suggested_params] of
    the heap, so the composer itself stores the records and the window. *)
Record AlgokitComposer : Type := mkAlgokitComposer {
  records : list (OpKind * TxnParams);
  composer_validity_window : Z
}.

(** Modelled from the spec: [add<Operation>(params) -> self] appends one
    record to the group. *)
Definition add_record (kind : OpKind) (params : TxnParams)
    (c : AlgokitComposer) : AlgokitComposer :=
  mkAlgokitComposer (records c ++ [(kind, params)])%list (composer_validity_window c).

Definition add_payment := add_record payment.
Definition add_asset_create := add_record asset_create.
Definition add_asset_config := add_record asset_config.
Definition add_asset_freeze := add_record asset_freeze.
Definition add_asset_destroy := add_record asset_destroy.
Definition add_asset_transfer := add_record asset_transfer.
Definition add_app_call := add_record app_call.
Definition add_online_key_reg := add_record online_key_reg.
Definition add_method_call := add_record method_call.
Definition add_asset_opt_in := add_record asset_opt_in.

(** Modelled from the spec: the composer applies the signer resolver to
    each transaction of a record. *)
Fixpoint attach_signers (txns : list Transaction) : M (list TransactionWithSigner) :=
  match txns with
  | [] => ret []
  | t :: rest =>
      s <- get_signer (txn_sender env t) ;;
      tail <- attach_signers rest ;;
      ret (mkTransactionWithSigner t s :: tail)
  end.

(** Modelled from the spec: the records are built in the order they were
    added; for each the params provider is asked first. *)
Fixpoint build_records (window : Z) (rs : list (OpKind * TxnParams))
    : M (list TransactionWithSigner) :=
  match rs with
  | [] => ret []
  | (kind, params) :: rest =>
      sp <- get_suggested_params ;;
      head_txns <- attach_signers (build_transactions env kind params sp window) ;;
      tail_txns <- build_records window rest ;;
      ret (head_txns ++ tail_txns)%list
  end.

(** Modelled from the spec: [buildGroup() -> ordered sequence of
    {transaction, signer}]: for each record, in order, the params provider
    is asked, the transactions of the record are constructed, and the
    signer resolver is applied to each.  Nothing is submitted. *)
Definition build_group (c : AlgokitComposer) : M (list TransactionWithSigner) :=
  build_records (composer_validity_window c) (records c).

(** Modelled from the spec: [execute() -> {transactionIds}]: the group is
    built, signed with the resolved signers and submitted through the
    ledger API; the ids of its transactions are returned in group order. *)
Definition execute (c : AlgokitComposer) : M AtomicTransactionResponse :=
  group <- build_group c ;;
  send_transactions (map txn group) ;;;
  ret (mkAtomicTransactionResponse (map (fun tw => get_txid env (txn tw)) group)).

(** ** [AlgorandClient]: the dispatch facade *)

(** The dictionary returned by [_unwrap_single_send_result]. *)
Record SendResult : Type := mkSendResult {
  confirmation : Confirmation;
  tx_id : string
}.

(** A built transaction or, for method calls, the list of them. *)
Inductive Built : Type :=
| OneTransaction (t : Transaction)
| TransactionList (ts : list Transaction).

(** [AlgorandClient._unwrap_single_send_result]; the value under
    ["confirmation"] is evaluated first. *)
Definition _unwrap_single_send_result (results : AtomicTransactionResponse)
    : M SendResult :=
  first_id <- lift (item0 (tx_ids results)) ;;
  w <- read_world ;;
  conf <- lift (wait_for_confirmation env (submitted w) first_id) ;;
  first_id' <- lift (item0 (tx_ids results)) ;;
  ret (mkSendResult conf first_id').

(** [AlgorandClient.new_group] *)
Definition new_group : M AlgokitComposer :=
  c <- read_client ;;
  ret (mkAlgokitComposer [] (_default_validity_window c)).

(** [AlgorandClient.send]: the table of senders, by operation kind. *)
Definition send (kind : OpKind) (params : TxnParams) : M SendResult :=
  match kind with
  | payment =>
      g <- new_group ;; r <- execute (add_payment params g) ;;
      _unwrap_single_send_result r
  | asset_create =>
      g <- new_group ;; r <- execute (add_asset_create params g) ;;
      _unwrap_single_send_result r
  | asset_config =>
      g <- new_group ;; r <- execute (add_asset_config params g) ;;
      _unwrap_single_send_result r
  | asset_freeze =>
      g <- new_group ;; r <- execute (add_asset_freeze params g) ;;
      _unwrap_single_send_result r
  | asset_destroy =>
      g <- new_group ;; r <- execute (add_asset_destroy params g) ;;
      _unwrap_single_send_result r
  | asset_transfer =>
      g <- new_group ;; r <- execute (add_asset_transfer params g) ;;
      _unwrap_single_send_result r
  | app_call =>
      g <- new_group ;; r <- execute (add_app_call params g) ;;
      _unwrap_single_send_result r
  | online_key_reg =>
      g <- new_group ;; r <- execute (add_online_key_reg params g) ;;
      _unwrap_single_send_result r
  | method_call =>
      g <- new_group ;; r <- execute (add_method_call params g) ;;
      _unwrap_single_send_result r
  | asset_opt_in =>
      g <- new_group ;; r <- execute (add_asset_opt_in params g) ;;
      _unwrap_single_send_result r
  end.

(** [... .build_group()[0].txn] *)
Definition first_txn (group : list TransactionWithSigner) : M Built :=
  tw <- lift (item0 group) ;;
  ret (OneTransaction (txn tw)).

(** [AlgorandClient.transactions]: the table of builders, by operation
    kind. *)
Definition transactions (kind : OpKind) (params : TxnParams) : M Built :=
  match kind with
  | payment =>
      g <- new_group ;; b <- build_group (add_payment params g) ;; first_txn b
  | asset_create =>
      g <- new_group ;; b <- build_group (add_asset_create params g) ;; first_txn b
  | asset_config =>
      g <- new_group ;; b <- build_group (add_asset_config params g) ;; first_txn b
  | asset_freeze =>
      g <- new_group ;; b <- build_group (add_asset_freeze params g) ;; first_txn b
  | asset_destroy =>
      g <- new_group ;; b <- build_group (add_asset_destroy params g) ;; first_txn b
  | asset_transfer =>
      g <- new_group ;; b <- build_group (add_asset_transfer params g) ;; first_txn b
  | app_call =>
      g <- new_group ;; b <- build_group (add_app_call params g) ;; first_txn b
  | online_key_reg =>
      g <- new_group ;; b <- build_group (add_online_key_reg params g) ;; first_txn b
  | method_call =>
      g <- new_group ;; b <- build_group (add_method_call params g) ;;
      ret (TransactionList (map txn b))
  | asset_opt_in =>
      g <- new_group ;; b <- build_group (add_asset_opt_in params g) ;; first_txn b
  end.

(** ** Sequences of registry operations and the provisioning operations *)

Inductive RegistryOp : Type :=
| DoSetDefaultSigner (s : TransactionSigner)
| DoSetSigner (a : string) (s : TransactionSigner)
| DoGetSigner (a : string).

Definition run_registry_op (o : RegistryOp) (st : State) : State :=
  match o with
  | DoSetDefaultSigner s => snd (set_default_signer s st)
  | DoSetSigner a s => snd (set_signer a s st)
  | DoGetSigner a => snd (get_signer a st)
  end.

Definition run_registry_ops (ops : list RegistryOp) (st : State) : State :=
  fold_left (fun acc o => run_registry_op o acc) ops st.

(** The address an operation registers, if it registers one. *)
Definition registers (o : RegistryOp) : option string :=
  match o with
  | DoSetSigner a _ => Some a
  | _ => None
  end.

(** The account-provisioning operations. *)
Inductive Provisioning : Type :=
| ByRandom
| ByDispenser
| ByLocalnetDispenser
| ByFromKmd (name : string) (predicate : option (AccountInfo -> bool))
            (sender : option string).

Definition provision (p : Provisioning) : M AddrAndSigner :=
  match p with
  | ByRandom => random
  | ByDispenser => dispenser
  | ByLocalnetDispenser => localnet_dispenser
  | ByFromKmd name predicate sender => from_kmd name predicate sender
  end.

(** An account of the named wallet that the selection of [from_kmd]
    accepts: it is listed in the wallet and, when a predicate is given, its
    account summary satisfies the predicate. *)
Definition selectable (name : string) (predicate : option (AccountInfo -> bool))
    (a : Account) : Prop :=
  exists candidates,
    kmd_wallet_accounts env name = Some candidates /\
    In a candidates /\
    forall p, predicate = Some p -> p (algod_account_info env (address a)) = true.

(** ** Heaps and worlds that the operations leave behind *)

(** The heap after registering the pair [r] in the heap [st], the world
    being [w]. *)
Definition registered_in (r : AddrAndSigner) (st : State) (w : World) : State :=
  mkState (mkAccountManager (<[addr r := signer r]> (_accounts (account_manager st)))
                            (_default_signer (account_manager st)))
          (algorand_client st) w.

(** The world after one more call of the ledger node's [suggested_params]
    endpoint. *)
Definition asked (w : World) : World :=
  mkWorld (S (suggested_params_calls w))
          (generate_account_calls w) (submit_calls w) (submitted w).

(** The answer the next call of [suggested_params()] gets. *)
Definition next_params (st : State) : result SuggestedParams :=
  algod_suggested_params env (suggested_params_calls (world st)).

Definition with_world (w : World) (st : State) : State :=
  mkState (account_manager st) (algorand_client st) w.

(** The heap in which the client caches [p], its other fields being those
    of [st]. *)
Definition caching (p : SuggestedParams) (st : State) : State :=
  mkState (account_manager st)
          (mkAlgorandClient (Some p)
             (_cached_suggested_params_expiry (algorand_client st))
             (_cached_suggested_params_timeout (algorand_client st))
             (_default_validity_window (algorand_client st)))
          (world st).

(** [n] calls of [get_suggested_params] in a row. *)
Fixpoint get_suggested_params_times (n : nat) : M (list SuggestedParams) :=
  match n with
  | O => ret []
  | S k =>
      p <- get_suggested_params ;;
      ps <- get_suggested_params_times k ;;
      ret (p :: ps)
  end.

(** The heap after [set_suggested_params P until] stored the expiry
    [expiry], the world being [w]. *)
Definition seeded (P : SuggestedParams) (expiry : Q) (w : World) (st : State) : State :=
  mkState (account_manager st)
          (mkAlgorandClient (Some P) (Some expiry)
             (_cached_suggested_params_timeout (algorand_client st))
             (_default_validity_window (algorand_client st)))
          w.

(** The group a facade call opens: a new composer with the one record. *)
Definition single_group (kind : OpKind) (params : TxnParams) (st : State)
    : AlgokitComposer :=
  add_record kind params
    (mkAlgokitComposer [] (_default_validity_window (algorand_client st))).

(** The world after the ledger node accepted [group]. *)
Definition accepted (group : list Transaction) (w : World) : World :=
  mkWorld (suggested_params_calls w) (generate_account_calls w)
          (S (submit_calls w)) (submitted w ++ [group])%list.

(** What the ledger node's submission endpoint has seen and accepted. *)
Definition ledger_view (st : State) : nat * list (list Transaction) :=
  (submit_calls (world st), submitted (world st)).

(** ** The remaining methods, and sequences of client calls *)

(** [AccountManager.get_information] *)
Definition get_information (sender : string) : M AccountInfo :=
  ret (algod_account_info env sender).

(** One call on the client or on its account manager; a caller may catch
    what the call raises and go on with the heap the call left. *)
Inductive ClientOp : Type :=
| CallSetDefaultSigner (s : TransactionSigner)
| CallSetSigner (a : string) (s : TransactionSigner)
| CallGetSigner (a : string)
| CallGetInformation (a : string)
| CallProvision (p : Provisioning)
| CallSetSuggestedParams (p : SuggestedParams) (until : option Q)
| CallSetSuggestedParamsTimeout (timeout : Z)
| CallSetDefaultValidityWindow (validity_window : Z)
| CallGetSuggestedParams
| CallSend (kind : OpKind) (params : TxnParams)
| CallTransactions (kind : OpKind) (params : TxnParams).

Definition run_client_op (o : ClientOp) (st : State) : State :=
  match o with
  | CallSetDefaultSigner s => snd (set_default_signer s st)
  | CallSetSigner a s => snd (set_signer a s st)
  | CallGetSigner a => snd (get_signer a st)
  | CallGetInformation a => snd (get_information a st)
  | CallProvision p => snd (provision p st)
  | CallSetSuggestedParams p until => snd (set_suggested_params p until st)
  | CallSetSuggestedParamsTimeout t => snd (set_suggested_params_timeout t st)
  | CallSetDefaultValidityWindow w => snd (set_default_validity_window w st)
  | CallGetSuggestedParams => snd (get_suggested_params st)
  | CallSend kind params => snd (send kind params st)
  | CallTransactions kind params => snd (transactions kind params st)
  end.

Definition run_client_ops (ops : list ClientOp) (st : State) : State :=
  fold_left (fun acc o => run_client_op o acc) ops st.

(** The calls that write to the signer registry, and the calls that write
    to the fields of the client. *)
Definition writes_registry (o : ClientOp) : bool :=
  match o with
  | CallSetDefaultSigner _ | CallSetSigner _ _ | CallProvision _ => true
  | _ => false
  end.

Definition writes_client (o : ClientOp) : bool :=
  match o with
  | CallSetSuggestedParams _ _ | CallSetSuggestedParamsTimeout _
  | CallSetDefaultValidityWindow _ | CallGetSuggestedParams
  | CallSend _ _ | CallTransactions _ _ => true
  | _ => false
  end.

(** [get_signer a] would return a signer. *)
Definition resolvable (a : string) (st : State) : Prop :=
  exists s, fst (get_signer a st) = Ok s.

(** A computation keeps a relation between the heap it finds and the heap
    it leaves, whether it returns or raises. *)
Definition preserves {A} (R : State -> State -> Prop) (c : M A) : Prop :=
  forall st, R st (snd (c st)).

(** What the cache and the facade may change: not the registry, not the
    timeout, not the validity window. *)
Definition facade_step (st st' : State) : Prop :=
  account_manager st' = account_manager st /\
  _cached_suggested_params_timeout (algorand_client st') =
    _cached_suggested_params_timeout (algorand_client st) /\
  _default_validity_window (algorand_client st') =
    _default_validity_window (algorand_client st).

(** What the account manager may change: not the client, and no address
    loses its signer. *)
Definition registry_step (st st' : State) : Prop :=
  algorand_client st' = algorand_client st /\
  forall a, resolvable a st -> resolvable a st'.

End Client.

(** * [testing/account.py] *)

Section TestAccount.

(** [TransferParameters] as [generate_test_account] fills it. *)
Record TransferParameters : Type := mkTransferParameters {
  from_account : Account;
  to_address : string;
  micro_algos : Z;
  note : string
}.

(** What [algod_client.account_info] may answer: a dictionary, of which
    the code reads the key ['amount'], or something that is not a
    dictionary. *)
Inductive AccountInfoResponse : Type :=
| DictResponse (amount : option Z)
| OtherResponse.

(** The two messages given to [logger.info]: the address with the
    mnemonic of the private key, and the balance read back. *)
Inductive LogRecord : Type :=
| NewTestAccountCreated (address0 mnemonic : string)
| TestAccountFunded (amount : option Z).

(** The outside of [generate_test_account]: the key generator, the
    mnemonic encoding, the dispenser lookup, [transfer] (it raises or
    returns) and the ledger node. *)
Record TestEnv : Type := mkTestEnv {
  test_generate_account : nat -> string * string;
  from_private_key : string -> string;
  test_get_dispenser_account : result Account;
  transfer : TransferParameters -> option exn;
  test_account_info : string -> result AccountInfoResponse
}.

(** What [generate_test_account] leaves behind: the keys generated, the
    transfers requested and the log, each oldest first. *)
Record TestWorld : Type := mkTestWorld {
  keys_generated : nat;
  transfers_requested : list TransferParameters;
  logged : list LogRecord
}.

Definition AssertionError : exn := ExternalError "AssertionError".

(** [generate_test_account] *)
Definition generate_test_account (tenv : TestEnv) (initial_funds : Z)
    (supress_log : bool) (w : TestWorld) : result Account * TestWorld :=
  let pk := fst (test_generate_account tenv (keys_generated w)) in
  let addr0 := snd (test_generate_account tenv (keys_generated w)) in
  let w1 := mkTestWorld (S (keys_generated w)) (transfers_requested w) (logged w) in
  let w2 :=
    if negb supress_log
    then mkTestWorld (keys_generated w1) (transfers_requested w1)
           (logged w1 ++ [NewTestAccountCreated addr0 (from_private_key tenv pk)])%list
    else w1 in
  match test_get_dispenser_account tenv with
  | Raise e => (Raise e, w2)
  | Ok dispenser0 =>
      let request := mkTransferParameters dispenser0 addr0 initial_funds
                       "Funding test account" in
      let w3 := mkTestWorld (keys_generated w2)
                  (transfers_requested w2 ++ [request])%list (logged w2) in
      match transfer tenv request with
      | Some e => (Raise e, w3)
      | None =>
          match test_account_info tenv addr0 with
          | Raise e => (Raise e, w3)
          | Ok OtherResponse => (Raise AssertionError, w3)
          | Ok (DictResponse amount) =>
              let w4 :=
                if negb supress_log
                then mkTestWorld (keys_generated w3) (transfers_requested w3)
                       (logged w3 ++ [TestAccountFunded amount])%list
                else w3 in
              (Ok (mkAccount pk addr0), w4)
          end
      end
  end.

End TestAccount.

(** * A concrete client, for the examples

    Signers are named by their private key, ledger parameters by their
    first valid round, a transaction is its sender with its id, a typed
    parameter record is its sender, and an account summary is the
    balance. *)

Module Demo.

Definition wallet_W : list Account :=
  [mkAccount "key-1" "ADDR1"; mkAccount "key-2" "ADDR2"].

(** The [k]-th fetch yields round [100 + k]; wallet ["W"] holds two accounts, of
    balance 5 and 500; a method call builds two transactions, every other
    operation one. *)
Definition demo_env : @Env string Z (string * string) string string Z :=
  mkEnv
    (fun k => Ok (100 + Z.of_nat k))
    (fun k => ("key-random", "ADDR-RANDOM"))
    (fun sk => sk)
    (fun a => private_key a)
    (fun _ => Ok (mkAccount "key-dispenser" "ADDR-DISPENSER"))
    (fun _ => Raise (ExternalError "not a LocalNet"))
    (fun name => if String.eqb name "W" then Some wallet_W else None)
    (fun a => if String.eqb a "ADDR2" then 500 else 5)
    (fun kind params sp window =>
       match kind with
       | method_call => [(params, "TX-ARG"); (params, "TX-CALL")]
       | _ => [(params, "TX")]
       end)
    fst
    snd
    (fun _ _ => None)
    (fun _ txid => Ok ("confirmed " ++ txid)).

Definition world0 : @World (string * string) := mkWorld 0 0 0 [].

(** A new client, and one on which ["ALICE"] has a signer. *)
Definition fresh : @State string Z (string * string) := init_state world0.

Definition with_alice : @State string Z (string * string) :=
  snd (set_signer "ALICE" "key-alice" fresh).

(** The client after a first [get_suggested_params], which raised: the
    value 100 is cached and no expiry is stored; and the same with a
    signer for ["ALICE"]. *)
Definition warm : @State string Z (string * string) :=
  snd (get_suggested_params demo_env fresh).

Definition warm_alice : @State string Z (string * string) :=
  snd (set_signer "ALICE" "key-alice" warm).

Definition rich : Z -> bool := fun balance => 100 <? balance.

(** A test environment: the dispenser is there, transfers go through, and
    the ledger node reports the balance 1000000. *)
Definition test_env : TestEnv :=
  mkTestEnv
    (fun k => ("key-test", "ADDR-TEST"))
    (fun pk => "mnemonic of " ++ pk)
    (Ok (mkAccount "key-dispenser" "ADDR-DISPENSER"))
    (fun _ => None)
    (fun _ => Ok (DictResponse (Some 1000000))).

Definition test_world0 : TestWorld := mkTestWorld 0 [] [].

(** The same environment with a ledger node that does not answer
    [suggested_params], and the test environment without a dispenser. *)
Definition offline_env : @Env string Z (string * string) string string Z :=
  mkEnv
    (fun _ => Raise (ExternalError "node unreachable"))
    (algosdk_generate_account demo_env)
    (AccountTransactionSigner demo_env)
    (Account_signer demo_env)
    (get_dispenser_account demo_env)
    (get_localnet_default_account demo_env)
    (kmd_wallet_accounts demo_env)
    (algod_account_info demo_env)
    (build_transactions demo_env)
    (txn_sender demo_env)
    (get_txid demo_env)
    (algod_send_transactions demo_env)
    (wait_for_confirmation demo_env).

Definition test_env_no_dispenser : TestEnv :=
  mkTestEnv
    (test_generate_account test_env)
    (from_private_key test_env)
    (Raise (ExternalError "no dispenser"))
    (transfer test_env)
    (test_account_info test_env).

(** Some calls that do not write to the registry, and some that do not
    write to the client. *)
Definition facade_calls
    : list (@ClientOp string Z string Z) :=
  [CallGetSuggestedParams; CallSend payment "ALICE";
   CallTransactions method_call "ALICE"; CallSetSuggestedParamsTimeout 5].

Definition registry_calls
    : list (@ClientOp string Z string Z) :=
  [CallSetSigner "BOB" "key-bob"; CallProvision ByRandom;
   CallSetDefaultSigner "key-default"; CallGetSigner "CAROL"].

End Demo.

(** * Properties *)

Section Properties.

Context {TransactionSigner SuggestedParams Transaction TxnParams
         Confirmation AccountInfo : Type}.

Variable env : @Env TransactionSigner SuggestedParams Transaction TxnParams
                    Confirmation AccountInfo.

Local Abbreviation State := (@State TransactionSigner SuggestedParams Transaction).
Local Abbreviation World := (@World Transaction).
Local Abbreviation AddrAndSigner := (@AddrAndSigner TransactionSigner).
Local Abbreviation RegistryOp := (@RegistryOp TransactionSigner).
Local Abbreviation Provisioning := (@Provisioning AccountInfo).
Local Abbreviation TransactionWithSigner :=
  (@TransactionWithSigner TransactionSigner Transaction).

Notation "x <- c ;; k" := (bind c (fun x => k))
  (at level 100, c at next level, right associativity).

Ltac run :=
  unfold set_default_signer, set_signer, get_signer, bind, ret, raise, lift,
    read_manager, write_manager, read_client, write_client, read_world,
    write_world in *; simpl in *.

(** ** Signer registry *)

Lemma get_signer_state (sender : string) (st : State) :
  snd (get_signer sender st) = st.
Proof.
  run. destruct (py_or _ _); reflexivity.
Qed.

Lemma get_signer_registered (sender : string) (s : TransactionSigner) (st : State) :
  _accounts (account_manager st) !! sender = Some s ->
  get_signer sender st = (Ok s, st).
Proof.
  intros H. run. rewrite H. reflexivity.
Qed.

Lemma get_signer_default (sender : string) (d : TransactionSigner) (st : State) :
  _accounts (account_manager st) !! sender = None ->
  _default_signer (account_manager st) = Some d ->
  get_signer sender st = (Ok d, st).
Proof.
  intros H1 H2. run. rewrite H1, H2. reflexivity.
Qed.

Lemma get_signer_none (sender : string) (st : State) :
  _accounts (account_manager st) !! sender = None ->
  _default_signer (account_manager st) = None ->
  get_signer sender st = (Raise (SignerNotFoundError sender), st).
Proof.
  intros H1 H2. run. rewrite H1, H2. reflexivity.
Qed.

Lemma set_signer_run (a : string) (s : TransactionSigner) (st : State) :
  set_signer a s st =
  (Ok tt, mkState (mkAccountManager (<[a := s]> (_accounts (account_manager st)))
                                    (_default_signer (account_manager st)))
                  (algorand_client st) (world st)).
Proof. reflexivity. Qed.

Lemma run_registry_op_keeps (o : RegistryOp) (a : string) (s : TransactionSigner)
    (st : State) :
  registers o <> Some a ->
  _accounts (account_manager st) !! a = Some s ->
  _accounts (account_manager (run_registry_op o st)) !! a = Some s.
Proof.
  intros Hne Hreg. destruct o as [d | b t | b]; simpl.
  - exact Hreg.
  - rewrite lookup_insert_ne; [exact Hreg |].
    intros ->. apply Hne. reflexivity.
  - rewrite get_signer_state. exact Hreg.
Qed.

Lemma run_registry_ops_keep (ops : list RegistryOp) (a : string)
    (s : TransactionSigner) (st : State) :
  Forall (fun o => registers o <> Some a) ops ->
  _accounts (account_manager st) !! a = Some s ->
  _accounts (account_manager (run_registry_ops ops st)) !! a = Some s.
Proof.
  intros Hall. revert st.
  induction Hall as [| o ops Ho _ IH]; intros st Hreg; simpl.
  - exact Hreg.
  - apply IH. apply run_registry_op_keeps; assumption.
Qed.

(** C1.  [get_signer] raises if and only if the address has no registered
    signer and no default signer is set; the exception is then the
    "no signer found" [ValueError] for that address, and the heap is left
    as it was. *)
Theorem get_signer_raises_iff (sender : string) (st : State) :
  ((exists e, fst (get_signer sender st) = Raise e) <->
   (_accounts (account_manager st) !! sender = None /\
    _default_signer (account_manager st) = None)) /\
  ((exists e, fst (get_signer sender st) = Raise e) ->
   get_signer sender st = (Raise (SignerNotFoundError sender), st)).
Proof.
  destruct (_accounts (account_manager st) !! sender) as [s |] eqn:Hreg.
  - rewrite (get_signer_registered _ _ _ Hreg). simpl.
    split; [split |]; intros H.
    + destruct H as [e He]. discriminate He.
    + destruct H as [H _]. discriminate H.
    + destruct H as [e He]. discriminate He.
  - destruct (_default_signer (account_manager st)) as [d |] eqn:Hdef.
    + rewrite (get_signer_default _ _ _ Hreg Hdef). simpl.
      split; [split |]; intros H.
      * destruct H as [e He]. discriminate He.
      * destruct H as [_ H]. discriminate H.
      * destruct H as [e He]. discriminate He.
    + rewrite (get_signer_none _ _ Hreg Hdef). simpl.
      split; [split |]; intros H.
      * split; reflexivity.
      * eexists. reflexivity.
      * reflexivity.
Qed.

(** C3.  After [set_signer A S], whatever registry operations follow that
    do not register [A] again (setting or replacing the default signer
    among them), [get_signer A] returns [S]; and for an address without a
    registered signer, with default signer [D] set, [get_signer] returns
    [D]. *)
Theorem get_signer_after_set_signer :
  (forall (A : string) (S : TransactionSigner) (st : State) (ops : list RegistryOp),
      Forall (fun o => registers o <> Some A) ops ->
      let st' := run_registry_ops ops (snd (set_signer A S st)) in
      get_signer A st' = (Ok S, st')) /\
  (forall (A : string) (D : TransactionSigner) (st : State),
      _accounts (account_manager st) !! A = None ->
      _default_signer (account_manager st) = Some D ->
      get_signer A st = (Ok D, st)).
Proof.
  split.
  - intros A S st ops Hops st'. apply get_signer_registered.
    apply run_registry_ops_keep; [exact Hops |].
    rewrite set_signer_run. simpl. apply lookup_insert_eq.
  - intros A D st H1 H2. apply get_signer_default; assumption.
Qed.

(** ** Account provisioning *)

Lemma get_signer_registered_in (r : AddrAndSigner) (st : State) (w : World) :
  get_signer (addr r) (registered_in r st w) = (Ok (signer r), registered_in r st w).
Proof.
  apply get_signer_registered. simpl. apply lookup_insert_eq.
Qed.

Lemma get_kmd_wallet_account_selectable (name : string)
    (predicate : option (AccountInfo -> bool)) (a : Account) :
  get_kmd_wallet_account env name predicate = Some a -> selectable env name predicate a.
Proof.
  unfold get_kmd_wallet_account, selectable.
  destruct (kmd_wallet_accounts env name) as [candidates |]; [| discriminate].
  intros H. exists candidates. split; [reflexivity |].
  destruct predicate as [p |].
  - apply find_some in H. destruct H as [Hin Hp].
    split; [exact Hin |]. intros q Hq. injection Hq as <-. exact Hp.
  - destruct candidates as [| c rest]; [discriminate |].
    simpl in H. injection H as ->.
    split; [left; reflexivity |]. intros q Hq. discriminate Hq.
Qed.

Lemma get_kmd_wallet_account_none (name : string)
    (predicate : option (AccountInfo -> bool)) :
  get_kmd_wallet_account env name predicate = None ->
  forall a, ~ selectable env name predicate a.
Proof.
  unfold get_kmd_wallet_account, selectable.
  intros H a [candidates [Hw [Hin Hp]]]. rewrite Hw in H.
  destruct predicate as [p |].
  - apply (find_none _ _ H) in Hin. rewrite (Hp p eq_refl) in Hin. discriminate Hin.
  - destruct candidates as [| c rest]; [destruct Hin | discriminate H].
Qed.

Lemma from_kmd_found (name : string) (predicate : option (AccountInfo -> bool))
    (sender : option string) (a : Account) (st : State) :
  get_kmd_wallet_account env name predicate = Some a ->
  from_kmd env name predicate sender st =
  (Ok (mkAddrAndSigner (address a) (Account_signer env a)),
   registered_in (mkAddrAndSigner (address a) (Account_signer env a)) st (world st)).
Proof.
  intros H. unfold from_kmd. rewrite H. reflexivity.
Qed.

Lemma from_kmd_not_found (name : string) (predicate : option (AccountInfo -> bool))
    (sender : option string) (st : State) :
  get_kmd_wallet_account env name predicate = None ->
  from_kmd env name predicate sender st =
  (Raise (AccountNotFoundError name (bool_decide (is_Some predicate))), st).
Proof.
  intros H. unfold from_kmd. rewrite H.
  destruct predicate; reflexivity.
Qed.

(** C7.  [from_kmd] raises the "unable to find KMD account" [ValueError],
    leaving the heap as it was, exactly when the named wallet holds no
    account that the selection accepts (the wallet is missing, it is empty,
    or the predicate rejects every candidate); and an account returned
    under a predicate satisfies the predicate. *)
Theorem from_kmd_raises_iff (name : string)
    (predicate : option (AccountInfo -> bool)) (sender : option string)
    (st : State) :
  let not_found :=
    Raise (AccountNotFoundError name (bool_decide (is_Some predicate))) in
  ((forall a, ~ selectable env name predicate a) <->
   from_kmd env name predicate sender st = (not_found, st)) /\
  (kmd_wallet_accounts env name = None ->
   fst (from_kmd env name predicate sender st) = not_found) /\
  (kmd_wallet_accounts env name = Some [] ->
   fst (from_kmd env name predicate sender st) = not_found) /\
  (forall p candidates,
      predicate = Some p ->
      kmd_wallet_accounts env name = Some candidates ->
      (forall a, In a candidates -> p (algod_account_info env (address a)) = false) ->
      fst (from_kmd env name predicate sender st) = not_found) /\
  (forall p r st',
      predicate = Some p ->
      from_kmd env name predicate sender st = (Ok r, st') ->
      p (algod_account_info env (addr r)) = true).
Proof.
  intros not_found. subst not_found.
  destruct (get_kmd_wallet_account env name predicate) as [a |] eqn:Hget.
  - pose proof (get_kmd_wallet_account_selectable _ _ _ Hget) as Hsel.
    rewrite (from_kmd_found _ _ sender _ st Hget).
    split; [split | split; [| split; [| split]]].
    + intros Hno. destruct (Hno a Hsel).
    + intros Heq. discriminate Heq.
    + intros Hw. unfold get_kmd_wallet_account in Hget. rewrite Hw in Hget.
      discriminate Hget.
    + intros Hw. unfold get_kmd_wallet_account in Hget. rewrite Hw in Hget.
      destruct predicate; discriminate Hget.
    + intros p candidates Hp Hw Hrej.
      destruct Hsel as [l [Hl [Hin Hsat]]].
      rewrite Hw in Hl. injection Hl as <-.
      pose proof (Hsat p Hp) as Ht. rewrite (Hrej a Hin) in Ht. discriminate Ht.
    + intros p r st' Hp Heq. injection Heq as <- _. simpl.
      destruct Hsel as [l [_ [_ Hsat]]]. apply Hsat. exact Hp.
  - rewrite (from_kmd_not_found _ _ sender st Hget).
    split; [split | split; [| split; [| split]]].
    + intros _. reflexivity.
    + intros _. apply get_kmd_wallet_account_none. exact Hget.
    + intros _. reflexivity.
    + intros _. reflexivity.
    + intros p candidates _ _ _. reflexivity.
    + intros p r st' _ Heq. discriminate Heq.
Qed.

(** C8.  A provisioning operation ([random], [dispenser],
    [localnet_dispenser], [from_kmd]) that returns a pair has registered
    exactly that pair: the registry of the heap it leaves is the one it
    found with the returned signer stored under the returned address, and
    [get_signer] of the returned address yields the returned signer. *)
Theorem provision_registers (p : Provisioning) (st st' : State) (r : AddrAndSigner) :
  provision env p st = (Ok r, st') ->
  st' = registered_in r st (world st') /\
  _accounts (account_manager st') !! addr r = Some (signer r) /\
  get_signer (addr r) st' = (Ok (signer r), st').
Proof.
  intros Hrun.
  assert (Hst : st' = registered_in r st (world st')).
  { destruct p as [| | | name predicate sender]; simpl in Hrun.
    - unfold random, generate_account in Hrun. run.
      injection Hrun as <- <-. reflexivity.
    - unfold dispenser in Hrun. run.
      destruct (get_dispenser_account env (world st)) as [acct | e];
        [| discriminate Hrun].
      injection Hrun as <- <-. reflexivity.
    - unfold localnet_dispenser in Hrun. run.
      destruct (get_localnet_default_account env (world st)) as [acct | e];
        [| discriminate Hrun].
      injection Hrun as <- <-. reflexivity.
    - unfold from_kmd in Hrun.
      destruct (get_kmd_wallet_account env name predicate) as [a |];
        [| discriminate Hrun].
      run. injection Hrun as <- <-. reflexivity. }
  split; [exact Hst |].
  rewrite Hst. split.
  - simpl. apply lookup_insert_eq.
  - apply get_signer_registered_in.
Qed.

(** ** Suggested-params cache *)

Ltac run_cache :=
  unfold get_suggested_params, cache_is_fresh, set_suggested_params,
    set_suggested_params_timeout, fetch_suggested_params, time_time,
    next_params in *;
  run.

Lemma float_truthy_false (x : Q) : float_truthy x = false <-> (x == 0)%Q.
Proof.
  unfold float_truthy. rewrite negb_false_iff. apply Qeq_bool_iff.
Qed.

Lemma float_truthy_true (x : Q) : float_truthy x = true <-> ~ (x == 0)%Q.
Proof.
  unfold float_truthy. rewrite negb_true_iff. split; intros H.
  - apply Qeq_bool_neq. exact H.
  - destruct (Qeq_bool x 0) eqn:E; [| reflexivity].
    apply Qeq_bool_iff in E. contradiction.
Qed.

(** A cached value without an expiry is served: the test stops at
    [expiry is None] and [time] is not evaluated. *)
Lemma get_suggested_params_no_expiry (st : State) (p : SuggestedParams) :
  _cached_suggested_params (algorand_client st) = Some p ->
  _cached_suggested_params_expiry (algorand_client st) = None ->
  get_suggested_params env st = (Ok p, st).
Proof.
  intros Hp He.
  run_cache. rewrite Hp, He. simpl. rewrite Hp. reflexivity.
Qed.

(** With a value and an expiry stored, the test evaluates [time]: the call
    raises and nothing has changed. *)
Lemma get_suggested_params_with_expiry (st : State) (p : SuggestedParams) (e : Q) :
  _cached_suggested_params (algorand_client st) = Some p ->
  _cached_suggested_params_expiry (algorand_client st) = Some e ->
  get_suggested_params env st = (Raise time_is_not_defined, st).
Proof.
  intros Hp He.
  run_cache. rewrite Hp, He. reflexivity.
Qed.

(** With nothing cached the call asks the ledger node, stores the answer,
    and raises when it comes to the new expiry. *)
Lemma get_suggested_params_empty (st : State) (q : SuggestedParams) :
  _cached_suggested_params (algorand_client st) = None ->
  next_params env st = Ok q ->
  get_suggested_params env st =
  (Raise time_is_not_defined, caching q (with_world (asked (world st)) st)).
Proof.
  intros Hp Hq.
  run_cache. rewrite Hp. simpl. rewrite Hq. reflexivity.
Qed.

(** An explicit, truthy [until] is stored as the expiry; [time] is not
    evaluated. *)
Lemma set_suggested_params_until (P : SuggestedParams) (T : Q) (st : State) :
  ~ (T == 0)%Q ->
  set_suggested_params P (Some T) st = (Ok tt, seeded P T (world st) st).
Proof.
  intros HT. apply float_truthy_true in HT.
  run_cache. rewrite HT. reflexivity.
Qed.

(** Without [until], or with a falsy one, the value is stored and the call
    raises when it comes to the expiry. *)
Lemma set_suggested_params_fallback (P : SuggestedParams) (until : option Q)
    (st : State) :
  match until with Some u => (u == 0)%Q | None => True end ->
  set_suggested_params P until st = (Raise time_is_not_defined, caching P st).
Proof.
  intros Hu. destruct until as [u |].
  - apply float_truthy_false in Hu. run_cache. rewrite Hu. reflexivity.
  - reflexivity.
Qed.

(** Any number of calls in a row are served from a cache without
    expiry. *)
Lemma get_suggested_params_times_no_expiry (n : nat) (st : State)
    (p : SuggestedParams) :
  _cached_suggested_params (algorand_client st) = Some p ->
  _cached_suggested_params_expiry (algorand_client st) = None ->
  get_suggested_params_times env n st = (Ok (repeat p n), st).
Proof.
  intros Hp He. induction n as [| n IH].
  - reflexivity.
  - cbn [get_suggested_params_times]. unfold bind at 1.
    rewrite (get_suggested_params_no_expiry st p Hp He).
    unfold bind at 1. rewrite IH. reflexivity.
Qed.

(** C2, on the code as it is.  On a new client the first of two calls of
    [get_suggested_params] does not return: it asks the ledger node,
    stores the answer, and raises [NameError] at [time.time()], so that no
    expiry is stored; the second call returns the stored value and asks
    nothing. *)
Theorem two_reads_first_raises (w : World) (q : SuggestedParams) :
  next_params env (init_state w) = Ok q ->
  fst (get_suggested_params env (init_state w)) = Raise time_is_not_defined /\
  _cached_suggested_params
    (algorand_client (snd (get_suggested_params env (init_state w)))) = Some q /\
  _cached_suggested_params_expiry
    (algorand_client (snd (get_suggested_params env (init_state w)))) = None /\
  suggested_params_calls (world (snd (get_suggested_params env (init_state w)))) =
    S (suggested_params_calls w) /\
  get_suggested_params env (snd (get_suggested_params env (init_state w))) =
    (Ok q, snd (get_suggested_params env (init_state w))).
Proof.
  intros Hq.
  rewrite (get_suggested_params_empty (init_state w) q eq_refl Hq).
  cbn [fst snd]. repeat split.
Qed.

(** C4, on the code as it is.  After [set_suggested_params P (until = T)]
    with [T] not zero, the value and the expiry [T] are stored, and every
    [get_suggested_params] raises [NameError] at the test against the
    clock: it neither returns [P] nor asks the ledger node, and leaves the
    heap as it is.  With [until] omitted the call itself raises
    [NameError] after storing [P], and stores no expiry. *)
Theorem until_is_never_compared (P : SuggestedParams) (T : Q) (st : State) (n : nat) :
  ~ (T == 0)%Q ->
  set_suggested_params P (Some T) st = (Ok tt, seeded P T (world st) st) /\
  get_suggested_params env (seeded P T (world st) st) =
    (Raise time_is_not_defined, seeded P T (world st) st) /\
  run_client_ops env (repeat CallGetSuggestedParams n) (seeded P T (world st) st) =
    seeded P T (world st) st /\
  set_suggested_params P None st = (Raise time_is_not_defined, caching P st).
Proof.
  intros HT.
  assert (Hget : get_suggested_params env (seeded P T (world st) st) =
                 (Raise time_is_not_defined, seeded P T (world st) st)).
  { exact (get_suggested_params_with_expiry (seeded P T (world st) st) P T
             eq_refl eq_refl). }
  split; [exact (set_suggested_params_until P T st HT) |].
  split; [exact Hget |]. split.
  - induction n as [| n IH]; [reflexivity |].
    change (run_client_ops env (repeat CallGetSuggestedParams n)
              (snd (get_suggested_params env (seeded P T (world st) st))) =
            seeded P T (world st) st).
    rewrite Hget. exact IH.
  - exact (set_suggested_params_fallback P None st I).
Qed.

(** C9, on the code as it is.  With [until] equal to [None] or to zero,
    [set_suggested_params] stores the value and raises [NameError] where
    the clock plus the timeout would be computed: the expiry is left as it
    was.  A non-zero [until] is stored as given. *)
Theorem falsy_until_raises (P : SuggestedParams) (until : option Q) (st : State) :
  (match until with Some u => (u == 0)%Q | None => True end ->
   set_suggested_params P until st = (Raise time_is_not_defined, caching P st) /\
   _cached_suggested_params_expiry
     (algorand_client (snd (set_suggested_params P until st))) =
   _cached_suggested_params_expiry (algorand_client st)) /\
  (forall u, until = Some u -> ~ (u == 0)%Q ->
   set_suggested_params P until st = (Ok tt, seeded P u (world st) st)).
Proof.
  split.
  - intros Hu. rewrite (set_suggested_params_fallback P until st Hu).
    split; reflexivity.
  - intros u -> Hu. exact (set_suggested_params_until P u st Hu).
Qed.

(** C10, on the code as it is.  A new client has the timeout [3000], but
    the timeout is never added to a reading of the clock: the first
    [get_suggested_params] raises [NameError] where the expiry would be
    computed, also after [set_suggested_params_timeout], leaving the
    fetched value cached without an expiry; every later call, however
    many, returns that value and asks the ledger node nothing. *)
Theorem new_client_value_never_expires (w : World) (q : SuggestedParams)
    (timeout : Z) (n : nat) :
  next_params env (init_state w) = Ok q ->
  _cached_suggested_params_timeout (@AlgorandClient_init SuggestedParams) = 3000 /\
  fst (get_suggested_params env (init_state w)) = Raise time_is_not_defined /\
  _cached_suggested_params_expiry
    (algorand_client (snd (get_suggested_params env (init_state w)))) = None /\
  get_suggested_params_times env n (snd (get_suggested_params env (init_state w))) =
    (Ok (repeat q n), snd (get_suggested_params env (init_state w))) /\
  fst (get_suggested_params env
         (snd (set_suggested_params_timeout timeout (init_state w)))) =
    Raise time_is_not_defined /\
  _cached_suggested_params_expiry
    (algorand_client
       (snd (get_suggested_params env
               (snd (set_suggested_params_timeout timeout (init_state w)))))) = None.
Proof.
  intros Hq.
  split; [reflexivity |].
  rewrite (get_suggested_params_empty (init_state w) q eq_refl Hq).
  cbn [fst snd].
  split; [reflexivity |]. split; [reflexivity |]. split.
  - apply get_suggested_params_times_no_expiry; reflexivity.
  - rewrite (get_suggested_params_empty
               (snd (set_suggested_params_timeout timeout (init_state w))) q
               eq_refl Hq).
    split; reflexivity.
Qed.

(** ** Dispatch facade *)

Lemma send_unfold (kind : OpKind) (params : TxnParams) (st : State) :
  send env kind params st =
  (r <- execute env (single_group kind params st) ;; _unwrap_single_send_result env r) st.
Proof. destruct kind; reflexivity. Qed.

Lemma transactions_unfold (kind : OpKind) (params : TxnParams) (st : State) :
  transactions env kind params st =
  (b <- build_group env (single_group kind params st) ;;
   match kind with
   | method_call => ret (TransactionList (map txn b))
   | _ => first_txn b
   end) st.
Proof. destruct kind; reflexivity. Qed.

Lemma get_suggested_params_ledger (st : State) :
  ledger_view (snd (get_suggested_params env st)) = ledger_view st.
Proof.
  run_cache.
  destruct (_cached_suggested_params (algorand_client st)) as [p |] eqn:Hp; simpl.
  - destruct (_cached_suggested_params_expiry (algorand_client st)) as [e |]; simpl.
    + reflexivity.
    + rewrite Hp. reflexivity.
  - destruct (algod_suggested_params env (suggested_params_calls (world st)));
      reflexivity.
Qed.

Lemma attach_signers_state (txns : list Transaction) (st : State) :
  snd (attach_signers env txns st) = st.
Proof.
  induction txns as [| t rest IH]; [reflexivity |].
  cbn [attach_signers]. unfold bind at 1.
  pose proof (get_signer_state (txn_sender env t) st) as Hs.
  destruct (get_signer (txn_sender env t) st) as [[s | e] st0];
    simpl in Hs; subst st0; [| reflexivity].
  unfold bind at 1.
  destruct (attach_signers env rest st) as [[tail | e] st1];
    simpl in IH; subst st1; reflexivity.
Qed.

Lemma build_records_ledger (window : Z) (rs : list (OpKind * TxnParams))
    (st : State) :
  ledger_view (snd (build_records env window rs st)) = ledger_view st.
Proof.
  revert st. induction rs as [| [kind params] rest IH]; intros st.
  - reflexivity.
  - cbn [build_records]. unfold bind at 1.
    pose proof (get_suggested_params_ledger st) as H1.
    destruct (get_suggested_params env st) as [[sp | e] st0]; simpl in H1;
      [| exact H1].
    unfold bind at 1.
    pose proof (attach_signers_state
                  (build_transactions env kind params sp window) st0) as Hs.
    destruct (attach_signers env (build_transactions env kind params sp window) st0)
      as [[head_txns | e] st1]; simpl in Hs; subst st1;
      [| exact H1].
    unfold bind at 1.
    pose proof (IH st0) as H2.
    destruct (build_records env window rest st0) as [[tail_txns | e] st2];
      simpl in H2 |- *; congruence.
Qed.

(** C5.  For every operation kind: when the group opened by [send] is
    built, with first transaction [first], the ledger node accepts it and
    the confirmation of [first] arrives, [send] returns the id of [first]
    together with the confirmation of [first], also when the group holds
    more transactions ([rest]); the group is then the last one the ledger
    node accepted. *)
Theorem send_returns_first (kind : OpKind) (params : TxnParams) (st st1 : State)
    (first : TransactionWithSigner) (rest : list TransactionWithSigner)
    (c : Confirmation) :
  build_group env (single_group kind params st) st = (Ok (first :: rest), st1) ->
  algod_send_transactions env (submit_calls (world st1))
    (map txn (first :: rest)) = None ->
  wait_for_confirmation env
    (submitted (world st1) ++ [map txn (first :: rest)])%list
    (get_txid env (txn first)) = Ok c ->
  send env kind params st =
  (Ok (mkSendResult c (get_txid env (txn first))),
   with_world (accepted (map txn (first :: rest)) (world st1)) st1).
Proof.
  intros Hbuild Hsend Hconf.
  rewrite send_unfold. unfold bind at 1. unfold execute, bind at 1.
  rewrite Hbuild. unfold send_transactions. run.
  rewrite Hsend. simpl.
  unfold _unwrap_single_send_result. run.
  rewrite Hconf. reflexivity.
Qed.

(** C6.  For every operation kind, [transactions] leaves the number of
    calls of the submission endpoint and the ledger state as they were; and
    when the group it opens is built, it returns the list of the group's
    transactions, in order, for a method call, and the group's first
    transaction otherwise. *)
Theorem transactions_build_only (kind : OpKind) (params : TxnParams) (st : State) :
  let run := transactions env kind params st in
  submit_calls (world (snd run)) = submit_calls (world st) /\
  submitted (world (snd run)) = submitted (world st) /\
  (forall group st1,
      build_group env (single_group kind params st) st = (Ok group, st1) ->
      snd run = st1 /\
      (kind = method_call -> fst run = Ok (TransactionList (map txn group))) /\
      (kind <> method_call ->
       forall first rest, group = first :: rest ->
                          fst run = Ok (OneTransaction (txn first)))).
Proof.
  intros run. subst run. rewrite transactions_unfold. unfold bind.
  pose proof (build_records_ledger
                (composer_validity_window (single_group kind params st))
                (records (single_group kind params st)) st) as Hl.
  fold (build_group env (single_group kind params st)) in Hl.
  destruct (build_group env (single_group kind params st) st) as [[group | e] st1];
    simpl in Hl; injection Hl as H1 H2; cbn beta iota.
  - assert (Hst : snd (match kind with
                       | method_call => ret (TransactionList (map txn group))
                       | _ => first_txn group
                       end st1) = st1).
    { unfold first_txn. run. destruct kind, group; reflexivity. }
    rewrite Hst. split; [exact H1 |]. split; [exact H2 |].
    intros group' st1' Heq. injection Heq as <- <-.
    split; [reflexivity |]. split.
    + intros ->. reflexivity.
    + intros Hk first rest ->. destruct kind; try reflexivity.
      destruct Hk. reflexivity.
  - simpl. split; [exact H1 |]. split; [exact H2 |].
    intros group st1' Heq. discriminate Heq.
Qed.

(** * Further properties of the code *)

Local Abbreviation ClientOp :=
  (@ClientOp TransactionSigner SuggestedParams TxnParams AccountInfo).

(** ** Signer registry *)

(** X1.  Registering an address again overwrites: after [set_signer A S1]
    and [set_signer A S2], [get_signer A] returns [S2] and the heap is the
    one [set_signer A S2] alone would have left; registering the same pair
    twice is registering it once. *)
Theorem set_signer_last_write_wins (A : string) (S1 S2 : TransactionSigner)
    (st : State) :
  let st2 := snd (set_signer A S2 (snd (set_signer A S1 st))) in
  get_signer A st2 = (Ok S2, st2) /\
  st2 = snd (set_signer A S2 st) /\
  snd (set_signer A S1 (snd (set_signer A S1 st))) = snd (set_signer A S1 st).
Proof.
  intros st2. subst st2. rewrite !set_signer_run. simpl.
  rewrite !insert_insert_eq. split; [| split]; try reflexivity.
  apply get_signer_registered. simpl. apply lookup_insert_eq.
Qed.

(** X2.  Registering a signer for one address changes what [get_signer]
    answers for no other address. *)
Theorem set_signer_other_address (A B : string) (S : TransactionSigner)
    (st : State) :
  A <> B ->
  fst (get_signer B (snd (set_signer A S st))) = fst (get_signer B st).
Proof.
  intros Hne. rewrite set_signer_run. run.
  rewrite lookup_insert_ne by exact Hne. 
  destruct (py_or _ _); reflexivity.
Qed.

(** X3.  [set_default_signer D] replaces the fallback and nothing else:
    afterwards an address with a registered signer still gets that signer,
    and every other address gets [D], whatever the default was before; so
    [get_signer] raises for no address. *)
Theorem set_default_signer_replaces (D : TransactionSigner) (B : string)
    (st : State) :
  let st1 := snd (set_default_signer D st) in
  _accounts (account_manager st1) = _accounts (account_manager st) /\
  get_signer B st1 =
    (Ok (default D (_accounts (account_manager st) !! B)), st1).
Proof.
  intros st1. subst st1. split; [reflexivity |].
  destruct (_accounts (account_manager st) !! B) as [s |] eqn:HB; simpl.
  - apply get_signer_registered. exact HB.
  - apply get_signer_default; [exact HB | reflexivity].
Qed.

(** ** What each call keeps *)

Lemma preserves_bind {A B : Type} (R : State -> State -> Prop) (c : M A)
    (k : A -> M B) :
  (forall x y z, R x y -> R y z -> R x z) ->
  preserves R c -> (forall a, preserves R (k a)) -> preserves R (bind c k).
Proof.
  intros Htrans Hc Hk st. unfold bind. specialize (Hc st).
  destruct (c st) as [[a | e] st0]; simpl in *.
  - apply (Htrans _ st0); [exact Hc | apply Hk].
  - exact Hc.
Qed.

Lemma preserves_pure {A : Type} (R : State -> State -> Prop) (c : M A) :
  (forall x, R x x) -> (forall st, snd (c st) = st) -> preserves R c.
Proof.
  intros Hrefl Hpure st. rewrite Hpure. apply Hrefl.
Qed.

Lemma facade_step_refl (st : State) : facade_step st st.
Proof. repeat split. Qed.

Lemma facade_step_trans (x y z : State) :
  facade_step x y -> facade_step y z -> facade_step x z.
Proof.
  intros [H1 [H2 H3]] [K1 [K2 K3]]. repeat split; congruence.
Qed.

Lemma facade_step_same_objects (st st' : State) :
  account_manager st' = account_manager st ->
  algorand_client st' = algorand_client st ->
  facade_step st st'.
Proof.
  intros Hm Hc. unfold facade_step. rewrite Hm, Hc. repeat split.
Qed.

Lemma resolvable_iff (a : string) (st : State) :
  resolvable a st <->
  is_Some (_accounts (account_manager st) !! a) \/
  is_Some (_default_signer (account_manager st)).
Proof.
  unfold resolvable. run.
  destruct (_accounts (account_manager st) !! a) as [s |];
    [| destruct (_default_signer (account_manager st)) as [d |]]; simpl.
  - split; [intros _; left; eexists; reflexivity | intros _; eexists; reflexivity].
  - split; [intros _; right; eexists; reflexivity | intros _; eexists; reflexivity].
  - split.
    + intros [s Hs]. discriminate Hs.
    + intros [[s Hs] | [s Hs]]; discriminate Hs.
Qed.

Lemma resolvable_same_manager (a : string) (st st' : State) :
  account_manager st' = account_manager st ->
  resolvable a st -> resolvable a st'.
Proof.
  intros Hm. rewrite !resolvable_iff, Hm. intros H. exact H.
Qed.

Lemma registry_step_refl (st : State) : registry_step st st.
Proof. split; [reflexivity | intros a H; exact H]. Qed.

Lemma registry_step_set_signer (a : string) (s : TransactionSigner) (st : State) :
  registry_step st (snd (set_signer a s st)).
Proof.
  rewrite set_signer_run. split; [reflexivity |].
  intros b. rewrite !resolvable_iff. simpl.
  intros [Hb | Hd]; [| right; exact Hd].
  left. destruct (decide (a = b)) as [-> | Hne].
  - rewrite lookup_insert_eq. eexists. reflexivity.
  - rewrite lookup_insert_ne by exact Hne. exact Hb.
Qed.

Lemma registry_step_provision (p : Provisioning) (st : State) :
  registry_step st (snd (provision env p st)).
Proof.
  destruct p as [| | | name predicate sender]; simpl.
  - unfold random, generate_account. run.
    split; [reflexivity |].
    intros b Hb.
    apply (proj2 (registry_step_set_signer
                    (snd (algosdk_generate_account env (generate_account_calls (world st))))
                    (AccountTransactionSigner env
                       (fst (algosdk_generate_account env
                               (generate_account_calls (world st)))))
                    st) b) in Hb.
    rewrite set_signer_run in Hb. revert Hb. rewrite !resolvable_iff. simpl.
    intros H. exact H.
  - unfold dispenser. run.
    destruct (get_dispenser_account env (world st)) as [acct | e]; simpl.
    + exact (registry_step_set_signer (address acct) (Account_signer env acct) st).
    + destruct st. apply registry_step_refl.
  - unfold localnet_dispenser. run.
    destruct (get_localnet_default_account env (world st)) as [acct | e]; simpl.
    + exact (registry_step_set_signer (address acct) (Account_signer env acct) st).
    + destruct st. apply registry_step_refl.
  - unfold from_kmd.
    destruct (get_kmd_wallet_account env name predicate) as [a |].
    + run. exact (registry_step_set_signer (address a) (Account_signer env a) st).
    + apply registry_step_refl.
Qed.

Lemma facade_step_get_suggested_params :
  preserves facade_step (get_suggested_params env).
Proof.
  intros st. unfold facade_step. run_cache.
  destruct (_cached_suggested_params (algorand_client st)) as [p |] eqn:Hp; simpl.
  - destruct (_cached_suggested_params_expiry (algorand_client st)) as [e |] eqn:He;
      simpl.
    + repeat split.
    + rewrite Hp. repeat split.
  - destruct (algod_suggested_params env (suggested_params_calls (world st)));
      simpl; repeat split.
Qed.

Lemma facade_step_attach_signers (txns : list Transaction) :
  preserves facade_step (attach_signers env txns).
Proof.
  apply preserves_pure; [exact facade_step_refl |].
  intros st. apply attach_signers_state.
Qed.

Lemma facade_step_build_records (window : Z) (rs : list (OpKind * TxnParams)) :
  preserves facade_step (build_records env window rs).
Proof.
  induction rs as [| [kind params] rest IH].
  - intros st. apply facade_step_refl.
  - cbn [build_records].
    apply preserves_bind;
      [exact facade_step_trans | exact facade_step_get_suggested_params |].
    intros sp.
    apply preserves_bind;
      [exact facade_step_trans | apply facade_step_attach_signers |].
    intros head_txns.
    apply preserves_bind; [exact facade_step_trans | exact IH |].
    intros tail_txns st. apply facade_step_refl.
Qed.

Lemma facade_step_send_transactions (group : list Transaction) :
  preserves facade_step (send_transactions env group).
Proof.
  intros st. unfold send_transactions. run.
  destruct (algod_send_transactions env (submit_calls (world st)) group);
    apply facade_step_same_objects; reflexivity.
Qed.

Lemma facade_step_execute (c : AlgokitComposer) :
  preserves facade_step (execute env c).
Proof.
  unfold execute.
  apply preserves_bind;
    [exact facade_step_trans | apply facade_step_build_records |].
  intros group.
  apply preserves_bind;
    [exact facade_step_trans | apply facade_step_send_transactions |].
  intros _ st. apply facade_step_refl.
Qed.

Lemma _unwrap_single_send_result_state (r : AtomicTransactionResponse) (st : State) :
  snd (_unwrap_single_send_result env r st) = st.
Proof.
  unfold _unwrap_single_send_result. run.
  destruct (item0 (tx_ids r)) as [first_id | e]; simpl; [| reflexivity].
  destruct (wait_for_confirmation env (submitted (world st)) first_id);
    reflexivity.
Qed.

Lemma facade_step_send (kind : OpKind) (params : TxnParams) :
  preserves facade_step (send env kind params).
Proof.
  intros st. rewrite send_unfold.
  apply (preserves_bind facade_step (execute env (single_group kind params st)));
    [exact facade_step_trans | apply facade_step_execute |].
  intros r. apply preserves_pure; [exact facade_step_refl |].
  apply _unwrap_single_send_result_state.
Qed.

Lemma facade_step_transactions (kind : OpKind) (params : TxnParams) :
  preserves facade_step (transactions env kind params).
Proof.
  intros st. rewrite transactions_unfold.
  apply (preserves_bind facade_step
           (build_group env (single_group kind params st)));
    [exact facade_step_trans | apply facade_step_build_records |].
  intros b. apply preserves_pure; [exact facade_step_refl |].
  intros st0. unfold first_txn. run. destruct kind, b; reflexivity.
Qed.

Lemma facade_step_set_suggested_params (p : SuggestedParams) (until : option Q) :
  preserves (@facade_step TransactionSigner SuggestedParams Transaction)
    (set_suggested_params p until).
Proof.
  intros st. unfold facade_step. run_cache.
  destruct until as [u |]; [destruct (float_truthy u) |]; simpl; repeat split.
Qed.

(** What one call keeps, whatever the call. *)
Lemma run_client_op_keeps (o : ClientOp) (st : State) :
  (writes_registry o = false ->
   account_manager (run_client_op env o st) = account_manager st) /\
  (writes_client o = false ->
   algorand_client (run_client_op env o st) = algorand_client st) /\
  (forall a, resolvable a st -> resolvable a (run_client_op env o st)).
Proof.
  assert (Hfacade : forall st', facade_step st st' ->
            (account_manager st' = account_manager st) /\
            (forall a, resolvable a st -> resolvable a st')).
  { intros st' [Hm _]. split; [exact Hm |].
    intros a. apply resolvable_same_manager. exact Hm. }
  destruct o as [s | a s | a | a | p | p until | t | w | | kind params | kind params];
    cbn [run_client_op writes_registry writes_client].
  - assert (H : registry_step st (snd (set_default_signer s st))).
    { split; [reflexivity |]. intros b. rewrite !resolvable_iff. simpl.
      intros _. right. eexists. reflexivity. }
    destruct H as [H1 H3].
    repeat split; intros; try discriminate; auto.
  - destruct (registry_step_set_signer a s st) as [H1 H3].
    repeat split; intros; try discriminate; auto.
  - rewrite get_signer_state.
    repeat split; intros; auto.
  - repeat split; intros; auto.
  - destruct (registry_step_provision p st) as [H1 H3].
    repeat split; intros; try discriminate; auto.
  - destruct (Hfacade _ (facade_step_set_suggested_params p until st)) as [H1 H3].
    repeat split; intros; try discriminate; auto.
  - repeat split; intros; try discriminate; try reflexivity; try assumption.
    apply (resolvable_same_manager a st); [reflexivity | assumption].
  - repeat split; intros; try discriminate; try reflexivity; try assumption.
    apply (resolvable_same_manager a st); [reflexivity | assumption].
  - destruct (Hfacade _ (facade_step_get_suggested_params st)) as [H1 H3].
    repeat split; intros; try discriminate; auto.
  - destruct (Hfacade _ (facade_step_send kind params st)) as [H1 H3].
    repeat split; intros; try discriminate; auto.
  - destruct (Hfacade _ (facade_step_transactions kind params st)) as [H1 H3].
    repeat split; intros; try discriminate; auto.
Qed.

(** X4.  No call takes a signer away: an address for which [get_signer]
    returns a signer still gets one after any sequence of calls on the
    client and its account manager (the signer may have been replaced). *)
Theorem resolvable_for_good (ops : list ClientOp) (a : string) (st : State) :
  resolvable a st -> resolvable a (run_client_ops env ops st).
Proof.
  revert st. induction ops as [| o ops IH]; intros st H; simpl.
  - exact H.
  - apply IH. apply (run_client_op_keeps o st). exact H.
Qed.

(** X5.  [get_suggested_params] returns exactly when a value is cached
    and no expiry is stored; it then returns that value.  It never writes
    the expiry, whether it returns or raises. *)
Theorem get_suggested_params_returns_iff (st : State) (p : SuggestedParams) :
  (fst (get_suggested_params env st) = Ok p <->
   _cached_suggested_params (algorand_client st) = Some p /\
   _cached_suggested_params_expiry (algorand_client st) = None) /\
  _cached_suggested_params_expiry
    (algorand_client (snd (get_suggested_params env st))) =
  _cached_suggested_params_expiry (algorand_client st).
Proof.
  run_cache.
  destruct (_cached_suggested_params (algorand_client st)) as [p0 |] eqn:Hp; simpl.
  - destruct (_cached_suggested_params_expiry (algorand_client st)) as [e |] eqn:He;
      simpl.
    + rewrite He. split; [| reflexivity]. split.
      * intros H. discriminate H.
      * intros [_ H]. discriminate H.
    + rewrite Hp. simpl. rewrite He. split; [| reflexivity]. split.
      * intros H. injection H as H. unfold copy in H. subst p0.
        split; reflexivity.
      * intros [H _]. injection H as ->. reflexivity.
  - destruct (algod_suggested_params env (suggested_params_calls (world st)));
      simpl; (split; [| reflexivity]); split.
    + intros H. discriminate H.
    + intros [H _]. discriminate H.
    + intros H. discriminate H.
    + intros [H _]. discriminate H.
Qed.

(** X6.  The two objects are changed only through their own methods: calls
    other than [set_default_signer], [set_signer] and the provisioning ones
    leave the account manager as it was (sending and building
    transactions among them), and calls on the account manager leave the
    fields of the client as they were. *)
Theorem calls_keep_the_other_object (ops : list ClientOp) (st : State) :
  (Forall (fun o => writes_registry o = false) ops ->
   account_manager (run_client_ops env ops st) = account_manager st) /\
  (Forall (fun o => writes_client o = false) ops ->
   algorand_client (run_client_ops env ops st) = algorand_client st).
Proof.
  split; intros Hall; revert st;
    induction Hall as [| o ops Ho _ IH]; intros st; simpl;
    try reflexivity.
  - rewrite IH. apply (run_client_op_keeps o st). exact Ho.
  - rewrite IH. apply (run_client_op_keeps o st). exact Ho.
Qed.

(** ** Suggested-params cache, further *)

(** X7.  When the ledger node fails to answer a refresh, the error reaches
    the caller and the client keeps the value and the expiry it had; the
    call is counted at the node. *)
Theorem failed_refresh_keeps_cache (st : State) (e : exn) :
  fst (cache_is_fresh st) = Ok false ->
  next_params env st = Raise e ->
  fst (get_suggested_params env st) = Raise e /\
  algorand_client (snd (get_suggested_params env st)) = algorand_client st /\
  account_manager (snd (get_suggested_params env st)) = account_manager st /\
  suggested_params_calls (world (snd (get_suggested_params env st))) =
    S (suggested_params_calls (world st)).
Proof.
  intros Hf He. run_cache.
  destruct (_cached_suggested_params (algorand_client st)) as [p |] eqn:Hp;
    simpl in *.
  - destruct (_cached_suggested_params_expiry (algorand_client st)) as [x |] eqn:Hx;
      simpl in *; discriminate Hf.
  - rewrite He. simpl. repeat split.
Qed.

(** X8.  [set_suggested_params_timeout] does not touch what is cached: the
    next [get_suggested_params] returns what it would have returned, and
    leaves the world it would have left; when it is served from the cache
    the stored expiry is the old one. *)
Theorem timeout_is_not_retroactive (timeout : Z) (st : State) :
  let st1 := snd (set_suggested_params_timeout timeout st) in
  _cached_suggested_params (algorand_client st1) =
    _cached_suggested_params (algorand_client st) /\
  _cached_suggested_params_expiry (algorand_client st1) =
    _cached_suggested_params_expiry (algorand_client st) /\
  fst (get_suggested_params env st1) = fst (get_suggested_params env st) /\
  world (snd (get_suggested_params env st1)) =
    world (snd (get_suggested_params env st)) /\
  (fst (cache_is_fresh st) = Ok true ->
   _cached_suggested_params_expiry
     (algorand_client (snd (get_suggested_params env st1))) =
   _cached_suggested_params_expiry (algorand_client st)).
Proof.
  intros st1. subst st1. split; [reflexivity |]. split; [reflexivity |].
  run_cache.
  destruct (_cached_suggested_params (algorand_client st)) as [p |] eqn:Hp; simpl.
  - destruct (_cached_suggested_params_expiry (algorand_client st)) as [x |] eqn:Hx;
      simpl.
    + repeat split; try (intros H; discriminate H).
    + rewrite Hp. simpl. repeat split; intros; try reflexivity; assumption.
  - destruct (algod_suggested_params env (suggested_params_calls (world st)));
      simpl; repeat split; try (intros H; discriminate H).
Qed.

(** X9.  While a value and an expiry are stored, [get_suggested_params]
    raises [NameError] at the test against the clock, whatever the expiry:
    it asks the ledger node nothing and changes nothing, and so does any
    number of such calls. *)
Theorem read_with_stored_expiry_raises (st : State) (p : SuggestedParams)
    (e : Q) (n : nat) :
  _cached_suggested_params (algorand_client st) = Some p ->
  _cached_suggested_params_expiry (algorand_client st) = Some e ->
  get_suggested_params env st = (Raise time_is_not_defined, st) /\
  run_client_ops env (repeat CallGetSuggestedParams n) st = st.
Proof.
  intros Hp He.
  assert (Hget : get_suggested_params env st = (Raise time_is_not_defined, st)).
  { run_cache. rewrite Hp, He. reflexivity. }
  split; [exact Hget |].
  induction n as [| n IH]; [reflexivity |].
  change (run_client_ops env (repeat CallGetSuggestedParams n)
            (snd (get_suggested_params env st)) = st).
  rewrite Hget. exact IH.
Qed.

(** ** Dispatch facade, further *)

Lemma build_group_single (kind : OpKind) (params : TxnParams) (st : State) :
  build_group env (single_group kind params st) st =
  (sp <- get_suggested_params env ;;
   head_txns <- attach_signers env
                  (build_transactions env kind params sp
                     (_default_validity_window (algorand_client st))) ;;
   ret (head_txns ++ [])%list) st.
Proof. reflexivity. Qed.

Lemma attach_signers_resolved (txns : list Transaction) (st : State) :
  (forall t, In t txns -> resolvable (txn_sender env t) st) ->
  exists group,
    attach_signers env txns st = (Ok group, st) /\ map txn group = txns.
Proof.
  induction txns as [| t rest IH]; intros Hall.
  - exists []. split; reflexivity.
  - destruct (Hall t (or_introl eq_refl)) as [s Hs].
    destruct IH as [tail [Htail Hmap]].
    { intros t' Hin. apply Hall. right. exact Hin. }
    exists (mkTransactionWithSigner t s :: tail).
    cbn [attach_signers]. unfold bind at 1.
    pose proof (get_signer_state (txn_sender env t) st) as Hst.
    destruct (get_signer (txn_sender env t) st) as [r st0].
    simpl in Hs, Hst. subst r st0.
    unfold bind at 1. rewrite Htail. simpl. rewrite Hmap.
    split; reflexivity.
Qed.

(** X10.  When the sender of the first transaction of the group has no
    registered signer and no default signer is set, [send] and
    [transactions] raise the "no signer found" error for that sender, for
    every operation kind; the submission endpoint is not called. *)
Theorem unresolvable_sender_stops_the_call (kind : OpKind) (params : TxnParams)
    (st st0 : State) (sp : SuggestedParams) (t : Transaction)
    (ts : list Transaction) :
  get_suggested_params env st = (Ok sp, st0) ->
  build_transactions env kind params sp
    (_default_validity_window (algorand_client st)) = t :: ts ->
  _accounts (account_manager st) !! txn_sender env t = None ->
  _default_signer (account_manager st) = None ->
  send env kind params st = (Raise (SignerNotFoundError (txn_sender env t)), st0) /\
  transactions env kind params st =
    (Raise (SignerNotFoundError (txn_sender env t)), st0) /\
  submit_calls (world st0) = submit_calls (world st) /\
  submitted (world st0) = submitted (world st).
Proof.
  intros Hsp Hbuild Hreg Hdef.
  pose proof (facade_step_get_suggested_params st) as [Hm _].
  pose proof (get_suggested_params_ledger st) as Hl.
  rewrite Hsp in Hm, Hl. simpl in Hm. unfold ledger_view in Hl. simpl in Hl.
  injection Hl as Hl1 Hl2.
  assert (Hgroup : build_group env (single_group kind params st) st =
                   (Raise (SignerNotFoundError (txn_sender env t)), st0)).
  { rewrite build_group_single. unfold bind at 1. rewrite Hsp.
    cbv beta iota. rewrite Hbuild.
    cbn [attach_signers]. unfold bind at 1. unfold bind at 1.
    rewrite (get_signer_none (txn_sender env t) st0).
    - reflexivity.
    - rewrite Hm. exact Hreg.
    - rewrite Hm. exact Hdef. }
  split; [| split; [| split]].
  - rewrite send_unfold. unfold bind at 1. unfold execute, bind at 1.
    rewrite Hgroup. reflexivity.
  - rewrite transactions_unfold. unfold bind at 1. rewrite Hgroup. reflexivity.
  - exact Hl1.
  - exact Hl2.
Qed.

(** X11.  When the params provider answers and every sender of the
    transactions built for the record resolves to a signer, [transactions]
    returns: all the built transactions, in order, for a method call; the
    first one for any other kind, or [IndexError] if none was built.  Its
    only effect is that of the params provider. *)
Theorem transactions_returns_built (kind : OpKind) (params : TxnParams)
    (st st0 : State) (sp : SuggestedParams) (txns : list Transaction) :
  get_suggested_params env st = (Ok sp, st0) ->
  build_transactions env kind params sp
    (_default_validity_window (algorand_client st)) = txns ->
  (forall t, In t txns -> resolvable (txn_sender env t) st) ->
  transactions env kind params st =
  (match kind with
   | method_call => Ok (TransactionList txns)
   | _ =>
       match txns with
       | t :: _ => Ok (OneTransaction t)
       | [] => Raise (IndexError "list index out of range")
       end
   end, st0).
Proof.
  intros Hsp Htxns Hall.
  pose proof (facade_step_get_suggested_params st) as [Hm _].
  rewrite Hsp in Hm. simpl in Hm.
  rewrite transactions_unfold. unfold bind at 1.
  rewrite build_group_single. unfold bind at 1. rewrite Hsp.
  cbv beta iota. rewrite Htxns.
  destruct (attach_signers_resolved txns st0) as [group [Hgroup Hmap]].
  { intros t Hin. apply (resolvable_same_manager _ st); [exact Hm |].
    apply Hall. exact Hin. }
  unfold bind at 1. rewrite Hgroup. unfold ret at 1. cbv beta iota.
  rewrite app_nil_r. rewrite <- Hmap.
  unfold first_txn. run.
  destruct kind, group; reflexivity.
Qed.

(** ** Provisioning, further *)

(** X12.  [random] never raises; and when a provisioning operation raises,
    the registry and the client are as they were. *)
Theorem provision_failure_changes_nothing (p : Provisioning) (st st' : State)
    (e : exn) :
  provision env p st = (Raise e, st') ->
  p <> ByRandom /\
  account_manager st' = account_manager st /\
  algorand_client st' = algorand_client st.
Proof.
  intros Hrun. destruct p as [| | | name predicate sender]; simpl in Hrun.
  - unfold random, generate_account in Hrun. run. discriminate Hrun.
  - unfold dispenser in Hrun. run.
    destruct (get_dispenser_account env (world st)); [discriminate Hrun |].
    injection Hrun as _ <-. repeat split. discriminate.
  - unfold localnet_dispenser in Hrun. run.
    destruct (get_localnet_default_account env (world st)); [discriminate Hrun |].
    injection Hrun as _ <-. repeat split. discriminate.
  - unfold from_kmd in Hrun.
    destruct (get_kmd_wallet_account env name predicate); run;
      [discriminate Hrun |].
    injection Hrun as _ <-. repeat split. discriminate.
Qed.

End Properties.

(** * Properties of [generate_test_account] *)

(** X13.  When [generate_test_account] returns, the account is the key
    pair it generated, one key pair was generated, and exactly one transfer
    was requested: from the dispenser to the new address, of
    [initial_funds] micro-algos, with the note "Funding test account". *)
Theorem generate_test_account_funds_new_account (tenv : TestEnv)
    (initial_funds : Z) (supress_log : bool) (w w' : TestWorld) (acct : Account) :
  generate_test_account tenv initial_funds supress_log w = (Ok acct, w') ->
  acct = mkAccount (fst (test_generate_account tenv (keys_generated w)))
                   (snd (test_generate_account tenv (keys_generated w))) /\
  keys_generated w' = S (keys_generated w) /\
  exists dispenser0,
    test_get_dispenser_account tenv = Ok dispenser0 /\
    transfers_requested w' =
      (transfers_requested w ++
       [mkTransferParameters dispenser0 (address acct) initial_funds
          "Funding test account"])%list.
Proof.
  unfold generate_test_account. intros Hrun.
  destruct (test_get_dispenser_account tenv) as [dispenser0 | e];
    [| discriminate Hrun].
  destruct (transfer tenv _) as [e |]; [discriminate Hrun |].
  destruct (test_account_info tenv _) as [[amount |] | e];
    try discriminate Hrun.
  injection Hrun as <- <-.
  split; [reflexivity |].
  destruct supress_log; simpl; (split; [reflexivity |]);
    exists dispenser0; split; reflexivity.
Qed.

(** X14.  With [supress_log] nothing is logged, whatever happens.  Without
    it the first record logged is the new address with the mnemonic of its
    private key, also when the call then raises; the balance read back is
    logged after it exactly when the call returns. *)
Theorem supress_log_controls_the_log (tenv : TestEnv) (initial_funds : Z)
    (w : TestWorld) :
  logged (snd (generate_test_account tenv initial_funds true w)) = logged w /\
  let created :=
    NewTestAccountCreated
      (snd (test_generate_account tenv (keys_generated w)))
      (from_private_key tenv (fst (test_generate_account tenv (keys_generated w)))) in
  match fst (generate_test_account tenv initial_funds false w) with
  | Ok _ =>
      exists amount,
        logged (snd (generate_test_account tenv initial_funds false w)) =
        (logged w ++ [created; TestAccountFunded amount])%list
  | Raise _ =>
      logged (snd (generate_test_account tenv initial_funds false w)) =
      (logged w ++ [created])%list
  end.
Proof.
  unfold generate_test_account. split.
  - destruct (test_get_dispenser_account tenv) as [dispenser0 | e];
      [| reflexivity].
    destruct (transfer tenv _) as [e |]; [reflexivity |].
    destruct (test_account_info tenv _) as [[amount |] | e]; reflexivity.
  - destruct (test_get_dispenser_account tenv) as [dispenser0 | e];
      [| reflexivity].
    destruct (transfer tenv _) as [e |]; [reflexivity |].
    destruct (test_account_info tenv _) as [[amount |] | e]; try reflexivity.
    simpl. exists amount. rewrite <- app_assoc. reflexivity.
Qed.

(** X15.  When [generate_test_account] raises, a key pair was generated all
    the same; no transfer was requested if the dispenser lookup raised,
    and exactly one was requested otherwise (the transfer itself raised, or
    the ledger node raised or answered with something that is not a
    dictionary, which gives the assertion error). *)
Theorem generate_test_account_failure (tenv : TestEnv) (initial_funds : Z)
    (supress_log : bool) (w w' : TestWorld) (e : exn) :
  generate_test_account tenv initial_funds supress_log w = (Raise e, w') ->
  keys_generated w' = S (keys_generated w) /\
  ((test_get_dispenser_account tenv = Raise e /\
    transfers_requested w' = transfers_requested w) \/
   (exists dispenser0,
       let request :=
         mkTransferParameters dispenser0
           (snd (test_generate_account tenv (keys_generated w)))
           initial_funds "Funding test account" in
       test_get_dispenser_account tenv = Ok dispenser0 /\
       transfers_requested w' = (transfers_requested w ++ [request])%list /\
       (transfer tenv request = Some e \/
        (transfer tenv request = None /\
         (test_account_info tenv
            (snd (test_generate_account tenv (keys_generated w))) = Raise e \/
          (test_account_info tenv
             (snd (test_generate_account tenv (keys_generated w))) =
             Ok OtherResponse /\
           e = AssertionError)))))).
Proof.
  unfold generate_test_account. intros Hrun.
  destruct (test_get_dispenser_account tenv) as [dispenser0 | e0].
  - destruct (transfer tenv _) as [e1 |] eqn:Htransfer.
    + injection Hrun as <- <-.
      split; [destruct supress_log; reflexivity |].
      right. exists dispenser0. simpl.
      split; [reflexivity |]. split; [destruct supress_log; reflexivity |].
      left. first [exact Htransfer | reflexivity].
    + destruct (test_account_info tenv _) as [[amount |] | e1] eqn:Hinfo;
        [discriminate Hrun | |].
      * injection Hrun as <- <-.
        split; [destruct supress_log; reflexivity |].
        right. exists dispenser0. simpl.
        split; [reflexivity |]. split; [destruct supress_log; reflexivity |].
        right. split; [first [exact Htransfer | reflexivity] |]. right. split; [first [exact Hinfo | reflexivity] | reflexivity].
      * injection Hrun as <- <-.
        split; [destruct supress_log; reflexivity |].
        right. exists dispenser0. simpl.
        split; [reflexivity |]. split; [destruct supress_log; reflexivity |].
        right. split; [first [exact Htransfer | reflexivity] |]. left. first [exact Hinfo | reflexivity].
  - injection Hrun as <- <-.
    split; [destruct supress_log; reflexivity |].
    left. split; [reflexivity | destruct supress_log; reflexivity].
Qed.

(** * Examples *)

Lemma get_signer_raises_iff_witness :
  get_signer "ALICE" Demo.fresh =
  (Raise (SignerNotFoundError "ALICE"), Demo.fresh).
Proof.
  apply (proj2 (get_signer_raises_iff "ALICE" Demo.fresh)).
  eexists. reflexivity.
Defined.

Lemma get_signer_after_set_signer_witness :
  let ops := [DoSetDefaultSigner "key-default"; DoSetSigner "BOB" "key-bob";
              DoGetSigner "CAROL"] in
  let st' := run_registry_ops ops (snd (set_signer "ALICE" "key-alice" Demo.fresh)) in
  Forall (fun o => registers o <> Some "ALICE") ops /\
  get_signer "ALICE" st' = (Ok "key-alice", st') /\
  get_signer "DAVE" st' = (Ok "key-default", st').
Proof.
  intros ops st'.
  assert (Hops : Forall (fun o => registers o <> Some "ALICE") ops).
  { repeat constructor; simpl; congruence. }
  split; [exact Hops |]. split.
  - exact (proj1 get_signer_after_set_signer "ALICE" "key-alice" Demo.fresh ops Hops).
  - apply (proj2 get_signer_after_set_signer "DAVE" "key-default" st');
      reflexivity.
Defined.

Lemma from_kmd_raises_iff_witness :
  from_kmd Demo.demo_env "W" (Some Demo.rich) None Demo.fresh =
    (Ok (mkAddrAndSigner "ADDR2" "key-2"),
     snd (from_kmd Demo.demo_env "W" (Some Demo.rich) None Demo.fresh)) /\
  Demo.rich (algod_account_info Demo.demo_env "ADDR2") = true /\
  fst (from_kmd Demo.demo_env "NO-SUCH-WALLET" (Some Demo.rich) None Demo.fresh) =
    Raise (AccountNotFoundError "NO-SUCH-WALLET" true).
Proof.
  assert (H : from_kmd Demo.demo_env "W" (Some Demo.rich) None Demo.fresh =
              (Ok (mkAddrAndSigner "ADDR2" "key-2"),
               snd (from_kmd Demo.demo_env "W" (Some Demo.rich) None Demo.fresh))).
  { reflexivity. }
  split; [exact H |]. split.
  - exact (proj2 (proj2 (proj2 (proj2
             (from_kmd_raises_iff Demo.demo_env "W" (Some Demo.rich) None Demo.fresh))))
             Demo.rich _ _ eq_refl H).
  - apply (proj1 (proj2
             (from_kmd_raises_iff Demo.demo_env "NO-SUCH-WALLET" (Some Demo.rich)
                None Demo.fresh))).
    reflexivity.
Defined.

Lemma provision_registers_witness :
  let r := mkAddrAndSigner "ADDR-RANDOM" "key-random" in
  let st' := snd (provision Demo.demo_env ByRandom Demo.fresh) in
  provision Demo.demo_env ByRandom Demo.fresh = (Ok r, st') /\
  get_signer "ADDR-RANDOM" st' = (Ok "key-random", st').
Proof.
  intros r st'.
  assert (H : provision Demo.demo_env ByRandom Demo.fresh = (Ok r, st')).
  { reflexivity. }
  split; [exact H |].
  exact (proj2 (proj2 (provision_registers Demo.demo_env ByRandom Demo.fresh st' r H))).
Defined.

Lemma two_reads_first_raises_witness :
  next_params Demo.demo_env (init_state Demo.world0) = Ok 100 /\
  fst (get_suggested_params Demo.demo_env (init_state Demo.world0)) =
    Raise time_is_not_defined /\
  fst (get_suggested_params Demo.demo_env
         (snd (get_suggested_params Demo.demo_env (init_state Demo.world0)))) =
    Ok 100.
Proof.
  assert (H : next_params Demo.demo_env (init_state Demo.world0) = Ok 100).
  { reflexivity. }
  split; [exact H |].
  destruct (two_reads_first_raises Demo.demo_env Demo.world0 100 H)
    as [H1 [_ [_ [_ H5]]]].
  split; [exact H1 |]. rewrite H5. reflexivity.
Defined.

Lemma until_is_never_compared_witness :
  ~ (5000 # 1 == 0)%Q /\
  fst (set_suggested_params 7 (Some (5000 # 1)%Q) Demo.fresh) = Ok tt /\
  fst (get_suggested_params Demo.demo_env
         (snd (set_suggested_params 7 (Some (5000 # 1)%Q) Demo.fresh))) =
    Raise time_is_not_defined /\
  fst (set_suggested_params 7 None Demo.fresh) = Raise time_is_not_defined.
Proof.
  assert (H : ~ (5000 # 1 == 0)%Q) by (intros E; discriminate E).
  split; [exact H |].
  destruct (until_is_never_compared Demo.demo_env 7 (5000 # 1)%Q Demo.fresh 3 H)
    as [H1 [H2 [_ H4]]].
  rewrite H1. cbn [fst snd]. rewrite H2, H4. repeat split.
Defined.

Lemma falsy_until_raises_witness :
  fst (set_suggested_params 7 (Some 0%Q) Demo.fresh) = Raise time_is_not_defined /\
  _cached_suggested_params_expiry
    (algorand_client (snd (set_suggested_params 7 (Some 0%Q) Demo.fresh))) = None /\
  _cached_suggested_params_expiry
    (algorand_client (snd (set_suggested_params 7 (Some (5 # 1)%Q) Demo.fresh))) =
    Some (5 # 1)%Q.
Proof.
  destruct (proj1 (falsy_until_raises 7 (Some 0%Q) Demo.fresh))
    as [H1 H2].
  { simpl. reflexivity. }
  split; [rewrite H1; reflexivity |]. split; [exact H2 |].
  rewrite (proj2 (falsy_until_raises 7 (Some (5 # 1)%Q) Demo.fresh)
             (5 # 1)%Q eq_refl).
  - reflexivity.
  - intros E. discriminate E.
Defined.

Lemma new_client_value_never_expires_witness :
  next_params Demo.demo_env (init_state Demo.world0) = Ok 100 /\
  get_suggested_params_times Demo.demo_env 3 Demo.warm =
    (Ok [100; 100; 100], Demo.warm).
Proof.
  assert (H : next_params Demo.demo_env (init_state Demo.world0) = Ok 100).
  { reflexivity. }
  split; [exact H |].
  exact (proj1 (proj2 (proj2 (proj2
           (new_client_value_never_expires Demo.demo_env Demo.world0 100 5 3 H))))).
Defined.

Lemma send_returns_first_witness :
  let first := mkTransactionWithSigner ("ALICE", "TX-ARG") "key-alice" in
  let rest := [mkTransactionWithSigner ("ALICE", "TX-CALL") "key-alice"] in
  let st1 := snd (build_group Demo.demo_env
                    (single_group method_call "ALICE" Demo.warm_alice)
                    Demo.warm_alice) in
  build_group Demo.demo_env (single_group method_call "ALICE" Demo.warm_alice)
    Demo.warm_alice = (Ok (first :: rest), st1) /\
  fst (send Demo.demo_env method_call "ALICE" Demo.warm_alice) =
    Ok (mkSendResult "confirmed TX-ARG" "TX-ARG") /\
  submitted (world (snd (send Demo.demo_env method_call "ALICE" Demo.warm_alice))) =
    [[("ALICE", "TX-ARG"); ("ALICE", "TX-CALL")]].
Proof.
  intros first rest st1.
  assert (H1 : build_group Demo.demo_env
                 (single_group method_call "ALICE" Demo.warm_alice)
                 Demo.warm_alice = (Ok (first :: rest), st1)).
  { reflexivity. }
  split; [exact H1 |].
  rewrite (send_returns_first Demo.demo_env method_call "ALICE" Demo.warm_alice
             st1 first rest "confirmed TX-ARG" H1 eq_refl eq_refl).
  split; reflexivity.
Defined.

Lemma transactions_build_only_witness :
  fst (transactions Demo.demo_env method_call "ALICE" Demo.warm_alice) =
    Ok (TransactionList [("ALICE", "TX-ARG"); ("ALICE", "TX-CALL")]) /\
  fst (transactions Demo.demo_env payment "ALICE" Demo.warm_alice) =
    Ok (OneTransaction ("ALICE", "TX")) /\
  submit_calls (world (snd (transactions Demo.demo_env payment "ALICE"
                              Demo.warm_alice))) = 0%nat.
Proof.
  split; [| split].
  - destruct (transactions_build_only Demo.demo_env method_call "ALICE"
                Demo.warm_alice) as [_ [_ H]].
    destruct (H _ _ eq_refl) as [_ [Hm _]].
    rewrite (Hm eq_refl). reflexivity.
  - destruct (transactions_build_only Demo.demo_env payment "ALICE"
                Demo.warm_alice) as [_ [_ H]].
    destruct (H _ _ eq_refl) as [_ [_ Ho]].
    apply (Ho ltac:(discriminate) (mkTransactionWithSigner ("ALICE", "TX") "key-alice") []).
    reflexivity.
  - exact (proj1 (transactions_build_only Demo.demo_env payment "ALICE"
                    Demo.warm_alice)).
Defined.

Lemma set_signer_other_address_witness :
  "ALICE" <> "BOB" /\
  fst (get_signer "BOB" (snd (set_signer "ALICE" "key-alice" Demo.fresh))) =
  fst (get_signer "BOB" Demo.fresh).
Proof.
  assert (H : "ALICE" <> "BOB") by discriminate.
  split; [exact H |].
  exact (set_signer_other_address "ALICE" "BOB" "key-alice" Demo.fresh H).
Defined.

Lemma resolvable_for_good_witness :
  resolvable "ALICE" Demo.with_alice /\
  resolvable "ALICE"
    (run_client_ops Demo.demo_env (Demo.registry_calls ++ Demo.facade_calls)
       Demo.with_alice).
Proof.
  assert (H : resolvable "ALICE" Demo.with_alice).
  { exists "key-alice". reflexivity. }
  split; [exact H |].
  exact (resolvable_for_good Demo.demo_env
           (Demo.registry_calls ++ Demo.facade_calls) "ALICE" Demo.with_alice H).
Defined.

Lemma get_suggested_params_returns_iff_witness :
  fst (get_suggested_params Demo.demo_env Demo.warm) = Ok 100 /\
  _cached_suggested_params_expiry
    (algorand_client (snd (get_suggested_params Demo.demo_env Demo.fresh))) = None.
Proof.
  split.
  - apply (proj1 (get_suggested_params_returns_iff Demo.demo_env Demo.warm 100)).
    split; reflexivity.
  - exact (proj2 (get_suggested_params_returns_iff Demo.demo_env Demo.fresh 100)).
Defined.

Lemma calls_keep_the_other_object_witness :
  account_manager (run_client_ops Demo.demo_env Demo.facade_calls Demo.with_alice) =
    account_manager Demo.with_alice /\
  algorand_client (run_client_ops Demo.demo_env Demo.registry_calls Demo.with_alice) =
    algorand_client Demo.with_alice.
Proof.
  split.
  - apply (proj1 (calls_keep_the_other_object Demo.demo_env Demo.facade_calls
                    Demo.with_alice)).
    repeat constructor.
  - apply (proj2 (calls_keep_the_other_object Demo.demo_env Demo.registry_calls
                    Demo.with_alice)).
    repeat constructor.
Defined.

Lemma failed_refresh_keeps_cache_witness :
  fst (get_suggested_params Demo.offline_env Demo.fresh) =
    Raise (ExternalError "node unreachable") /\
  algorand_client (snd (get_suggested_params Demo.offline_env Demo.fresh)) =
    algorand_client Demo.fresh.
Proof.
  destruct (failed_refresh_keeps_cache Demo.offline_env Demo.fresh
              (ExternalError "node unreachable") eq_refl eq_refl)
    as [H1 [H2 _]].
  split; [exact H1 | exact H2].
Defined.

Lemma read_with_stored_expiry_raises_witness :
  let st := snd (set_suggested_params 7 (Some (5 # 1)%Q) Demo.fresh) in
  _cached_suggested_params_expiry (algorand_client st) = Some (5 # 1)%Q /\
  get_suggested_params Demo.demo_env st = (Raise time_is_not_defined, st) /\
  suggested_params_calls (world st) = 0%nat.
Proof.
  intros st.
  assert (H : _cached_suggested_params_expiry (algorand_client st) = Some (5 # 1)%Q).
  { reflexivity. }
  split; [exact H |].
  split; [| reflexivity].
  exact (proj1 (read_with_stored_expiry_raises Demo.demo_env st 7 (5 # 1)%Q 2
                  eq_refl H)).
Defined.

Lemma unresolvable_sender_stops_the_call_witness :
  get_suggested_params Demo.demo_env Demo.warm = (Ok 100, Demo.warm) /\
  fst (send Demo.demo_env payment "ALICE" Demo.warm) =
    Raise (SignerNotFoundError "ALICE") /\
  submit_calls (world Demo.warm) = 0%nat.
Proof.
  assert (H : get_suggested_params Demo.demo_env Demo.warm = (Ok 100, Demo.warm)).
  { reflexivity. }
  split; [exact H |].
  destruct (unresolvable_sender_stops_the_call Demo.demo_env payment "ALICE"
              Demo.warm Demo.warm 100 ("ALICE", "TX") [] H eq_refl eq_refl eq_refl)
    as [H1 [_ [H3 _]]].
  rewrite H1. split; [reflexivity | reflexivity].
Defined.

Lemma transactions_returns_built_witness :
  get_suggested_params Demo.demo_env Demo.warm_alice = (Ok 100, Demo.warm_alice) /\
  resolvable "ALICE" Demo.warm_alice /\
  fst (transactions Demo.demo_env payment "ALICE" Demo.warm_alice) =
    Ok (OneTransaction ("ALICE", "TX")).
Proof.
  assert (H0 : get_suggested_params Demo.demo_env Demo.warm_alice =
               (Ok 100, Demo.warm_alice)).
  { reflexivity. }
  assert (H : resolvable "ALICE" Demo.warm_alice).
  { exists "key-alice". reflexivity. }
  split; [exact H0 |]. split; [exact H |].
  rewrite (transactions_returns_built Demo.demo_env payment "ALICE"
             Demo.warm_alice Demo.warm_alice 100 [("ALICE", "TX")] H0 eq_refl).
  - reflexivity.
  - intros t [<- | []]. exact H.
Defined.

Lemma provision_failure_changes_nothing_witness :
  provision Demo.demo_env ByLocalnetDispenser Demo.with_alice =
    (Raise (ExternalError "not a LocalNet"), Demo.with_alice) /\
  account_manager Demo.with_alice = account_manager Demo.with_alice.
Proof.
  assert (H : provision Demo.demo_env ByLocalnetDispenser Demo.with_alice =
              (Raise (ExternalError "not a LocalNet"), Demo.with_alice)).
  { reflexivity. }
  split; [exact H |].
  exact (proj1 (proj2 (provision_failure_changes_nothing Demo.demo_env
                         ByLocalnetDispenser Demo.with_alice Demo.with_alice
                         (ExternalError "not a LocalNet") H))).
Defined.

Lemma generate_test_account_funds_new_account_witness :
  let run := generate_test_account Demo.test_env 5000 false Demo.test_world0 in
  fst run = Ok (mkAccount "key-test" "ADDR-TEST") /\
  transfers_requested (snd run) =
    [mkTransferParameters (mkAccount "key-dispenser" "ADDR-DISPENSER")
       "ADDR-TEST" 5000 "Funding test account"].
Proof.
  intros run.
  assert (H : generate_test_account Demo.test_env 5000 false Demo.test_world0 =
              (Ok (mkAccount "key-test" "ADDR-TEST"), snd run)).
  { reflexivity. }
  split; [reflexivity |].
  destruct (generate_test_account_funds_new_account Demo.test_env 5000 false
              Demo.test_world0 (snd run) (mkAccount "key-test" "ADDR-TEST") H)
    as [_ [_ [dispenser0 [Hd Ht]]]].
  rewrite Ht. injection Hd as <-. reflexivity.
Defined.

Lemma generate_test_account_failure_witness :
  let run := generate_test_account Demo.test_env_no_dispenser 5000 false
               Demo.test_world0 in
  fst run = Raise (ExternalError "no dispenser") /\
  keys_generated (snd run) = 1%nat /\
  transfers_requested (snd run) = [].
Proof.
  intros run.
  assert (H : generate_test_account Demo.test_env_no_dispenser 5000 false
                Demo.test_world0 = (Raise (ExternalError "no dispenser"), snd run)).
  { reflexivity. }
  split; [reflexivity |].
  destruct (generate_test_account_failure Demo.test_env_no_dispenser 5000 false
              Demo.test_world0 (snd run) (ExternalError "no dispenser") H)
    as [Hk _].
  split; [exact Hk | reflexivity].
Defined.
